(** * Sliding-window object detection (OpenMV solution script)

    A shallow embedding of
    [3.1.4 - Project - Sliding Window Object Detection/OpenMV/
     solution-live-sliding-window-object-detection.py]:
    the start-up code (labels, window counts, target index) and the body
    of the main loop (the nested window scan that fills [bboxes]).

    Python integers are [Z].  Probabilities are the floats of the
    interpreter the script runs on; the script only compares them with
    [>=], so they are a type with a boolean comparison, an interface that
    the binary64 floats of the kernel implement further down.  Camera,
    image and TensorFlow calls belong to the firmware and are the other
    members of that interface. *)

From Stdlib Require Import ZArith List String Ascii Bool Lia Sorted.
From Stdlib Require Import PrimFloat.
From Stdlib Require DecimalString DecimalZ DecimalPos.
Import ListNotations.
Open Scope Z_scope.

Set Implicit Arguments.

(* Decimal float literals are rounded to the nearest binary64 value, as
   Python rounds them. *)
Set Warnings "-inexact-float".

(** ** Exceptions and results *)

(** The exceptions the script can end with.  [BackendError] stands for
    whatever [tf.classify] raises (out of memory, bad model, ...). *)
Inductive exn : Type :=
| ZeroDivisionError
| ValueError
| IndexError
| BackendError (code : Z).

Inductive result (A : Type) : Type :=
| Ok (a : A)
| Raise (e : exn).
Arguments Ok {A} a.
Arguments Raise {A} e.

Definition is_ok {A} (r : result A) : bool :=
  match r with Ok _ => true | Raise _ => false end.

(** ** The Python builtins the script uses *)

Module Py.

(** [range(n)]: 0, 1, ..., n-1, and nothing when [n <= 0]. *)
Definition range (n : Z) : list Z :=
  map Z.of_nat (seq 0 (Z.to_nat n)).

(** [math.floor(a / b)] on integers.  The true quotient is a float; it is
    taken here as the exact quotient, which it is for pixel counts. *)
Definition floor_div (a b : Z) : result Z :=
  if b =? 0 then Raise ZeroDivisionError else Ok (a / b).

(** [l[i]], with Python's negative indices. *)
Definition getitem {A} (l : list A) (i : Z) : result A :=
  let n := Z.of_nat (List.length l) in
  let k := if i <? 0 then i + n else i in
  if (k <? 0) || (n <=? k) then Raise IndexError
  else match nth_error l (Z.to_nat k) with
       | Some a => Ok a
       | None => Raise IndexError
       end.

(** [l.index(x)], searching from position [i]. *)
Fixpoint index_from (l : list string) (x : string) (i : Z) : result Z :=
  match l with
  | [] => Raise ValueError
  | y :: l' => if String.eqb y x then Ok i else index_from l' x (i + 1)
  end.

Definition index (l : list string) (x : string) : result Z :=
  index_from l x 0.

(** [s.rstrip(c)] for a one-character [c]. *)
Fixpoint rstrip (c : ascii) (s : string) : string :=
  match s with
  | EmptyString => EmptyString
  | String a s' =>
      match rstrip c s' with
      | EmptyString => if Ascii.eqb a c then EmptyString
                       else String a EmptyString
      | r => String a r
      end
  end.

End Py.

(** ** The firmware interface *)

(** A region of interest [(x, y, w, h)]. *)
Definition roi : Type := (Z * Z * Z * Z)%type.

(** One element of the list [tf.classify] returns; [output] is its
    [output()] method. *)
Record prediction (P : Type) : Type := { output : list P }.

Class Runtime : Type := {
  image : Type;
  prob : Type;
  (** [p >= q] on two floats *)
  prob_ge : prob -> prob -> bool;
  (** [img.copy(roi=r)] *)
  img_copy : image -> roi -> image;
  (** [tf.classify(model_file, window_img)] *)
  tf_classify : string -> image -> result (list (prediction prob))
}.

(** ** Settings and start-up *)

(** The settings block at the top of the script, over the float type [P].
    [labels_lines] is what iterating over [open(labels_file)] yields. *)
Record settings (P : Type) : Type := {
  model_file : string;
  labels_lines : list string;
  target_label : string;
  target_threshold : P;
  width : Z;
  height : Z;
  window_width : Z;
  window_height : Z;
  stride : Z
}.

(** The globals computed once before the main loop. *)
Record globals : Type := {
  labels : list string;
  num_horizontal_windows : Z;
  num_vertical_windows : Z;
  target_idx : Z
}.

Definition nl : ascii := Ascii.ascii_of_nat 10.
Definition cr : ascii := Ascii.ascii_of_nat 13.

(** Line 33: [line.rstrip('\n').rstrip('\r')] for each line. *)
Definition read_labels (lines : list string) : list string :=
  map (fun line => Py.rstrip cr (Py.rstrip nl line)) lines.

(** Lines 36 and 37: [math.floor((frame - window) / step) + 1]. *)
Definition num_windows (frame window step : Z) : result Z :=
  match Py.floor_div (frame - window) step with
  | Ok q => Ok (q + 1)
  | Raise e => Raise e
  end.

(** Lines 33 to 40, in the order the script runs them. *)
Definition startup {P} (st : settings P) : result globals :=
  let lbls := read_labels (labels_lines st) in
  match num_windows (width st) (window_width st) (stride st) with
  | Raise e => Raise e
  | Ok nh =>
      match num_windows (height st) (window_height st) (stride st) with
      | Raise e => Raise e
      | Ok nv =>
          match Py.index lbls (target_label st) with
          | Raise e => Raise e
          | Ok idx =>
              Ok {| labels := lbls;
                    num_horizontal_windows := nh;
                    num_vertical_windows := nv;
                    target_idx := idx |}
          end
      end
  end.

(** ** The scan *)

(** An element of [bboxes]: the tuple [(x, y, w, h, prob)]. *)
Record bbox (P : Type) : Type := {
  bx : Z; by_ : Z; bw : Z; bh : Z; bprob : P
}.

(** What one pass over a frame changes: the list [bboxes], and (for the
    proofs only) the windows [tf.classify] was called on, in call order. *)
Record scan_state (P : Type) : Type := {
  bboxes : list (bbox P);
  calls : list roi
}.

Section Monad.
Variable P : Type.

Definition M (A : Type) : Type :=
  scan_state P -> result A * scan_state P.

Definition ret {A} (a : A) : M A := fun s => (Ok a, s).

Definition bind {A B} (m : M A) (k : A -> M B) : M B :=
  fun s => match m s with
           | (Ok a, s') => k a s'
           | (Raise e, s') => (Raise e, s')
           end.

Definition lift {A} (r : result A) : M A := fun s => (r, s).

(** [bboxes.append(b)] *)
Definition append (b : bbox P) : M unit :=
  fun s => (Ok tt, {| bboxes := bboxes s ++ [b]; calls := calls s |}).

(** [for a in l: body a] *)
Fixpoint for_each {A} (l : list A) (body : A -> M unit) : M unit :=
  match l with
  | [] => ret tt
  | a :: l' => bind (body a) (fun _ => for_each l' body)
  end.

End Monad.

Arguments ret {P A} a.
Arguments lift {P A} r.

Notation "x <- m ;; k" := (bind m (fun x => k))
  (at level 61, m at next level, right associativity).

Section Scan.
Context {RT : Runtime}.

(** The call of the classifier on the copy of window [r]. *)
Definition classify (model : string) (window_img : image) (r : roi)
  : M prob (list (prediction prob)) :=
  fun s => (tf_classify model window_img,
            {| bboxes := bboxes s; calls := calls s ++ [r] |}).

(** Lines 66 to 79: the body of the inner loop.  The script reads
    [predictions[target_idx]] a second time for the tuple; it is the
    same element, bound once here. *)
Definition scan_window (st : settings prob) (g : globals) (img : image)
    (vertical_window horizontal_window : Z) : M prob unit :=
  let x := horizontal_window * stride st in
  let y := vertical_window * stride st in
  let r := (x, y, window_width st, window_height st) in
  let window_img := img_copy img r in
  objs <- classify (model_file st) window_img r ;;
  o <- lift (Py.getitem objs 0) ;;
  let predictions := output o in
  p <- lift (Py.getitem predictions (target_idx g)) ;;
  if prob_ge p (target_threshold st)
  then append {| bx := x; by_ := y; bw := window_width st;
                 bh := window_height st; bprob := p |}
  else ret tt.

(** Lines 62 to 79: the two nested loops. *)
Definition scan_loops (st : settings prob) (g : globals) (img : image)
  : M prob unit :=
  for_each (Py.range (num_vertical_windows g)) (fun vertical_window =>
    for_each (Py.range (num_horizontal_windows g)) (fun horizontal_window =>
      scan_window st g img vertical_window horizontal_window)).

(** One pass of the main loop, from [bboxes = []] on: the boxes it leaves
    in [bboxes], or the exception that ended it, and the windows it
    classified. *)
Definition scan (st : settings prob) (g : globals) (img : image)
  : result (list (bbox prob)) * list roi :=
  match scan_loops st g img {| bboxes := []; calls := [] |} with
  | (Ok _, s) => (Ok (bboxes s), calls s)
  | (Raise e, s) => (Raise e, calls s)
  end.

(** A finite run of the endless [while(True)] loop, over the frames
    [sensor.snapshot()] delivers.  It gives the boxes printed for each
    finished frame, the windows classified on the way, and the exception
    that ended the script, if one did. *)
Fixpoint main_loop (st : settings prob) (g : globals) (frames : list image)
  : list (list (bbox prob)) * list roi * option exn :=
  match frames with
  | [] => ([], [], None)
  | img :: rest =>
      match scan st g img with
      | (Raise e, log) => ([], log, Some e)
      | (Ok bbs, log) =>
          let '(out, log', e) := main_loop st g rest in
          (bbs :: out, log ++ log', e)
      end
  end.

Definition script (st : settings prob) (frames : list image)
  : list (list (bbox prob)) * list roi * option exn :=
  match startup st with
  | Raise e => ([], [], Some e)
  | Ok g => main_loop st g frames
  end.

(** ** What the scan amounts to, window by window *)

(** The index pairs [(vertical_window, horizontal_window)] in the order
    the nested loops visit them. *)
Definition windows (g : globals) : list (Z * Z) :=
  flat_map (fun v => map (pair v) (Py.range (num_horizontal_windows g)))
           (Py.range (num_vertical_windows g)).

Definition window_roi (st : settings prob) (w : Z * Z) : roi :=
  (snd w * stride st, fst w * stride st, window_width st, window_height st).

(** The probability the classifier gives the target label on a window:
    [tf.classify(...)[0].output()[target_idx]]. *)
Definition window_prob (st : settings prob) (g : globals) (img : image)
    (w : Z * Z) : result prob :=
  match tf_classify (model_file st) (img_copy img (window_roi st w)) with
  | Raise e => Raise e
  | Ok objs =>
      match Py.getitem objs 0 with
      | Raise e => Raise e
      | Ok o => Py.getitem (output o) (target_idx g)
      end
  end.

Definition window_box (st : settings prob) (w : Z * Z) (p : prob)
  : bbox prob :=
  {| bx := snd w * stride st; by_ := fst w * stride st;
     bw := window_width st; bh := window_height st; bprob := p |}.

(** The boxes a window adds to [bboxes]. *)
Definition window_boxes (st : settings prob) (g : globals) (img : image)
    (w : Z * Z) : list (bbox prob) :=
  match window_prob st g img w with
  | Ok p => if prob_ge p (target_threshold st)
            then [window_box st w p] else []
  | Raise _ => []
  end.

(** The windows of [ws] that get classified, up to and with the first
    one that raises, and what it raised. *)
Fixpoint outcome (st : settings prob) (g : globals) (img : image)
    (ws : list (Z * Z)) : list (Z * Z) * option exn :=
  match ws with
  | [] => ([], None)
  | w :: ws' =>
      match window_prob st g img w with
      | Ok _ => let (done, e) := outcome st g img ws' in (w :: done, e)
      | Raise e => ([w], Some e)
      end
  end.

(** Is pixel [(px, py)] inside the rectangle [r]? *)
Definition inside (px py : Z) (r : roi) : bool :=
  let '(x, y, w, h) := r in
  (x <=? px) && (px <? x + w) && (y <=? py) && (py <? y + h).

(** Boxes at grid position [(x, y)]. *)
Definition at_position (x y : Z) (b : bbox prob) : bool :=
  (bx b =? x) && (by_ b =? y).

(** Raster order on boxes: top to bottom, then left to right. *)
Definition raster_lt (b1 b2 : bbox prob) : Prop :=
  by_ b1 < by_ b2 \/ (by_ b1 = by_ b2 /\ bx b1 < bx b2).

End Scan.

(** Raster order on index pairs. *)
Definition idx_lt (w1 w2 : Z * Z) : Prop :=
  fst w1 < fst w2 \/ (fst w1 = fst w2 /\ snd w1 < snd w2).

(** Two answers of the classifier that raise the same exception, or are
    lists with the same first element (or both empty). *)
Definition same_first {P} (r1 r2 : result (list (prediction P))) : Prop :=
  match r1, r2 with
  | Ok l1, Ok l2 => hd_error l1 = hd_error l2
  | Raise e1, Raise e2 => e1 = e2
  | _, _ => False
  end.

(** ** A stub firmware on binary64 floats *)

(** A frame of the stub is what the model will answer for the window whose
    top-left corner is at a given pixel; copying a region moves the
    origin, and the classifier reads the answer at the origin. *)
Definition scene : Type := Z -> Z -> result (list (prediction float)).

Definition stub_rt : Runtime := {|
  image := scene;
  prob := float;
  prob_ge := fun p q => PrimFloat.leb q p;
  img_copy := fun img r => let '(x, y, _, _) := r in
                           fun dx dy => img (x + dx) (y + dy);
  tf_classify := fun _ window_img => window_img 0 0
|}.

(** The settings as the script has them, with a two-line labels file. *)
Definition script_settings : settings float := {|
  model_file := "trained.tflite";
  labels_lines := [String "b" (String "g" (String nl EmptyString));
                   String "d" (String "o" (String "g" (String cr (String nl EmptyString))))];
  target_label := "dog";
  target_threshold := 0.6%float;
  width := 160;
  height := 120;
  window_width := 48;
  window_height := 48;
  stride := 24
|}.

Definition answer (ps : list float) : result (list (prediction float)) :=
  Ok [ {| output := ps |} ].

(** What start-up computes from these settings. *)
Definition script_globals : globals := {|
  labels := ["bg"; "dog"]%string;
  num_horizontal_windows := 5;
  num_vertical_windows := 4;
  target_idx := 1
|}.

(** No dog anywhere. *)
Definition quiet_scene : scene := fun _ _ => answer [0.9; 0.1]%float.

(** The model gives "dog" exactly the threshold on the window at (24, 0)
    and just less on the window at (48, 0). *)
Definition dog_scene : scene := fun x y =>
  if (x =? 24) && (y =? 0) then answer [0.4; 0.6]%float
  else if (x =? 48) && (y =? 0) then answer [0.41; 0.59]%float
  else answer [0.9; 0.1]%float.

(** Three dogs in the top row, with scores that go down and up again. *)
Definition mixed_scene : scene := fun x y =>
  if (y =? 0) && (x =? 0) then answer [0.1; 0.9]%float
  else if (y =? 0) && (x =? 24) then answer [0.3; 0.7]%float
  else if (y =? 0) && (x =? 48) then answer [0.2; 0.8]%float
  else answer [0.9; 0.1]%float.

(** A model with three outputs, one more than there are labels. *)
Definition wide_scene : scene := fun _ _ => answer [0.5; 0.3; 0.2]%float.

(** A model with one output only: the target index 1 is missing. *)
Definition short_scene : scene := fun _ _ => answer [0.9]%float.

(** The backend fails on the third window of the top row. *)
Definition failing_scene : scene := fun x y =>
  if (x =? 48) && (y =? 0) then Raise (BackendError 7)
  else answer [0.9; 0.1]%float.

(** A classifier that returns a second prediction object after the first. *)
Definition chatty_classify (m : string) (window_img : scene)
  : result (list (prediction float)) :=
  match tf_classify (Runtime := stub_rt) m window_img with
  | Ok (o :: l) => Ok (o :: {| output := [0.0; 1.0]%float |} :: l)
  | r => r
  end.

(** The script's settings with a window wider than the frame. *)
Definition oversized_settings : settings float := {|
  model_file := "trained.tflite";
  labels_lines := labels_lines script_settings;
  target_label := "dog";
  target_threshold := 0.6%float;
  width := 160;
  height := 120;
  window_width := 200;
  window_height := 48;
  stride := 24
|}.

(** The script's settings looking for a label the file does not have. *)
Definition cat_settings : settings float := {|
  model_file := "trained.tflite";
  labels_lines := labels_lines script_settings;
  target_label := "cat";
  target_threshold := 0.6%float;
  width := 160;
  height := 120;
  window_width := 48;
  window_height := 48;
  stride := 24
|}.

(** The script's settings with the window as large as the frame. *)
Definition full_frame_settings : settings float := {|
  model_file := "trained.tflite";
  labels_lines := labels_lines script_settings;
  target_label := "dog";
  target_threshold := 0.6%float;
  width := 160;
  height := 120;
  window_width := 160;
  window_height := 120;
  stride := 24
|}.

(** What start-up computes from [oversized_settings]. *)
Definition oversized_globals : globals := {|
  labels := ["bg"; "dog"]%string;
  num_horizontal_windows := -1;
  num_vertical_windows := 4;
  target_idx := 1
|}.

(** What start-up computes from [full_frame_settings]. *)
Definition full_frame_globals : globals := {|
  labels := ["bg"; "dog"]%string;
  num_horizontal_windows := 1;
  num_vertical_windows := 1;
  target_idx := 1
|}.

(** The stub with the classifier that says more. *)
Definition chatty_rt : Runtime := {|
  image := scene;
  prob := float;
  prob_ge := fun p q => PrimFloat.leb q p;
  img_copy := img_copy (Runtime := stub_rt);
  tf_classify := chatty_classify
|}.

Definition box (x y : Z) (p : float) : bbox float :=
  {| bx := x; by_ := y; bw := 48; bh := 48; bprob := p |}.

(** ** More of the script: label lines and the frames of a run *)

(** [n] times the character [c]. *)
Fixpoint run (c : ascii) (n : nat) : string :=
  match n with
  | O => EmptyString
  | S n' => String c (run c n')
  end.

Fixpoint last_char (s : string) : option ascii :=
  match s with
  | EmptyString => None
  | String a EmptyString => Some a
  | String _ s' => last_char s'
  end.

(** The boxes printed for a frame whose scan ends normally. *)
Definition frame_boxes {RT : Runtime} (st : settings prob) (g : globals)
    (img : image) : list (bbox prob) :=
  match fst (scan st g img) with
  | Ok bbs => bbs
  | Raise _ => []
  end.

(** The windows classified on a frame. *)
Definition frame_calls {RT : Runtime} (st : settings prob) (g : globals)
    (img : image) : list roi :=
  snd (scan st g img).

(** A model that answers with no prediction object on the window at
    (24, 24). *)
Definition mute_scene : scene := fun x y =>
  if (x =? 24) && (y =? 24) then Ok [] else answer [0.9; 0.1]%float.

(** The script's settings with a stride of zero, and with the window
    moved backwards. *)
Definition zero_stride_settings : settings float := {|
  model_file := "trained.tflite";
  labels_lines := labels_lines script_settings;
  target_label := "dog";
  target_threshold := 0.6%float;
  width := 160;
  height := 120;
  window_width := 48;
  window_height := 48;
  stride := 0
|}.

Definition backward_settings : settings float := {|
  model_file := "trained.tflite";
  labels_lines := labels_lines script_settings;
  target_label := "dog";
  target_threshold := 0.6%float;
  width := 160;
  height := 120;
  window_width := 48;
  window_height := 48;
  stride := -24
|}.

Definition backward_globals : globals := {|
  labels := ["bg"; "dog"]%string;
  num_horizontal_windows := -4;
  num_vertical_windows := -2;
  target_idx := 1
|}.

(** ** The printed report (lines 85 to 91) *)

(** [str(z)] of an integer: its decimal digits, after a minus sign when it
    is negative. *)
Definition str_int (z : Z) : string :=
  DecimalString.NilZero.string_of_int (Z.to_int z).

Section Report.
Context {RT : Runtime}.

(** [str(p)] of a float; which digits it gives is the interpreter's
    business. *)
Variable str_prob : prob -> string.

(** The line printed for one box. *)
Definition box_line (bb : bbox prob) : string :=
  (" " ++ "x:" ++ str_int (bx bb) ++ " y:" ++ str_int (by_ bb) ++
   " w:" ++ str_int (bw bb) ++ " h:" ++ str_int (bh bb) ++
   " prob:" ++ str_prob (bprob bb))%string.

(** The lines printed for one frame; [fps] is what [clock.fps()] gave. *)
Definition report (bbs : list (bbox prob)) (fps : prob) : list string :=
  ["---"; "Boxes:"]%string ++ map box_line bbs ++
  [("FPS: " ++ str_prob fps)%string].

Definition box_geometry (bb : bbox prob) : roi :=
  (bx bb, by_ bb, bw bb, bh bb).

End Report.

(** Strings without a space. *)
Fixpoint no_space (s : string) : Prop :=
  match s with
  | EmptyString => True
  | String a s' => a <> " "%char /\ no_space s'
  end.

(** * Live object detection on the Pi camera

    [3.3.1 - Deploy Object Detection Model (Raspberry Pi)/
     live-detection-pi-cam.py]: the model is initialised, then every frame
    of the camera is classified, the bounding boxes the model returns are
    drawn on it with the frame rate, and the frame is shown, until the
    key [q] is read.  What the script prints, draws and shows is a list of
    events.  What [runner.init()] returns is a Python value the script
    subscripts; the results of [runner.classify] are taken to be well
    formed: a result has its bounding boxes, a box its six fields. *)

Module LiveDetection.

(** The exceptions of this script: what the runner raises, the
    [KeyError] of a missing key, the [TypeError] of subscripting what is
    no dictionary, and the [ZeroDivisionError] of the frame-rate
    division. *)
Inductive raised : Type :=
| RunnerError (code : Z)
| KeyError (k : string)
| TypeError
| ZeroDivisionError.

Inductive attempt (A : Type) : Type :=
| Done (a : A)
| Raised (e : raised).
Arguments Done {A} a.
Arguments Raised {A} e.

(** An element of [res['result']['bounding_boxes']]. *)
Record bounding_box (V : Type) : Type := {
  bbox_x : Z;
  bbox_y : Z;
  bbox_width : Z;
  bbox_height : Z;
  bbox_label : string;
  bbox_value : V
}.

(** Python values, as far as [model_info] holds them.  The items of a
    dictionary have each key once. *)
Unset Elimination Schemes.
Inductive pyval : Type :=
| PyNone
| PyInt (z : Z)
| PyStr (s : string)
| PyList (l : list pyval)
| PyDict (items : list (string * pyval)).
Set Elimination Schemes.

Fixpoint lookup (k : string) (items : list (string * pyval))
  : option pyval :=
  match items with
  | [] => None
  | (k', v) :: items' => if String.eqb k' k then Some v else lookup k items'
  end.

(** [v[k]] for a string [k]. *)
Definition subscript (v : pyval) (k : string) : attempt pyval :=
  match v with
  | PyDict items =>
      match lookup k items with
      | Some x => Done x
      | None => Raised (KeyError k)
      end
  | _ => Raised TypeError
  end.

(** [v[k1][k2]] *)
Definition subscript2 (v : pyval) (k1 k2 : string) : attempt pyval :=
  match subscript v k1 with
  | Done x => subscript x k2
  | Raised e => Raised e
  end.

(** What the camera, the clock and the keyboard give for one pass of the
    loop: [frame.array], the two readings of [cv2.getTickCount()] and the
    result of [cv2.waitKey(1)]. *)
Record frame (I : Type) : Type := {
  array : I;
  ticks_start : Z;
  ticks_end : Z;
  key : Z
}.

Class Runner : Type := {
  picture : Type;
  features : Type;
  score : Type;
  (** [runner.init()] *)
  runner_init : attempt pyval;
  (** [cv2.cvtColor(img, cv2.COLOR_BGR2RGB)] *)
  cvt_color : picture -> picture;
  (** [runner.get_features_from_image(img_rgb)], its first component *)
  get_features_from_image : picture -> attempt features;
  (** [runner.classify(features)], its ['result']['bounding_boxes'] *)
  classify : features -> attempt (list (bounding_box score));
  (** [str(round(v, 2))] of a float *)
  str_round2 : score -> string;
  (** [1 / (ticks / cv2.getTickFrequency())] *)
  frame_rate : Z -> attempt score
}.

Inductive event (V : Type) : Type :=
| Print (line : string)
| PrintInfo (caption : string) (v : pyval)
| PrintException (e : raised)
| PrintOutput (res : option (list (bounding_box V)))
| RunnerStop
| Rectangle (x0 y0 x1 y1 : Z)
| PutText (text : string) (x y : Z)
| Imshow
| Truncate
| DestroyAllWindows.
Arguments Print {V} line.
Arguments PrintInfo {V} caption v.
Arguments PrintException {V} e.
Arguments RunnerStop {V}.
Arguments Rectangle {V} x0 y0 x1 y1.
Arguments PutText {V} text x y.
Arguments Imshow {V}.
Arguments Truncate {V}.
Arguments DestroyAllWindows {V}.

(** How one pass of the loop ends: on to the next frame with a new
    [fps], out of the loop, or with an exception nothing catches. *)
Inductive pass_end (V : Type) : Type :=
| Continue (fps : option V)
| Break
| Crash (e : raised).
Arguments Break {V}.
Arguments Crash {V} e.

(** How the script ends on the frames it is given: [sys.exit], the key
    [q], an exception, or still capturing when the frames run out. *)
Inductive ending : Type :=
| Exit (status : Z)
| Quit
| Uncaught (e : raised)
| Capturing.

Section Script.
Context {R : Runner}.

(** [str(round(fps, 2))]; [fps] is the integer 0 until the first frame
    has been timed, [None] here. *)
Definition fps_text (fps : option score) : string :=
  match fps with
  | None => "0"
  | Some v => str_round2 v
  end.

(** Lines 91 to 110: the rectangle and the caption of one box. *)
Definition draw_box (bbox : bounding_box score) : list (event score) :=
  let b_x0 := bbox_x bbox in
  let b_y0 := bbox_y bbox in
  let b_x1 := bbox_x bbox + bbox_width bbox in
  let b_y1 := bbox_y bbox + bbox_height bbox in
  [ Rectangle b_x0 b_y0 b_x1 b_y1;
    PutText (bbox_label bbox ++ ": " ++ str_round2 (bbox_value bbox))%string
            b_x0 (b_y0 + 12) ].

(** Lines 66 to 132: one pass of the loop. *)
Definition frame_body (fps : option score) (fr : frame picture)
  : list (event score) * pass_end score :=
  let img := array fr in
  let img_rgb := cvt_color img in
  match get_features_from_image img_rgb with
  | Raised e => ([], Crash e)
  | Done ftrs =>
      let '(res, tried) :=
        match classify ftrs with
        | Done r => (Some r, [])
        | Raised e => (None, [ Print "ERROR: Could not perform inference";
                               PrintException e ])
        end in
      match res with
      | None => (tried ++ [PrintOutput None], Crash TypeError)
      | Some bboxes =>
          let shown :=
            tried ++ [PrintOutput res] ++ flat_map draw_box bboxes ++
            [ PutText ("FPS: " ++ fps_text fps)%string 0 12;
              Imshow; Truncate ] in
          match frame_rate (ticks_end fr - ticks_start fr) with
          | Raised e => (shown, Crash e)
          | Done v => if key fr =? 113 then (shown, Break)
                      else (shown, Continue (Some v))
          end
      end
  end.

(** Lines 62 to 135: the loop and what follows it. *)
Fixpoint capture_loop (fps : option score) (frames : list (frame picture))
  : list (event score) * ending :=
  match frames with
  | [] => ([], Capturing)
  | fr :: rest =>
      match frame_body fps fr with
      | (ev, Continue fps') =>
          let '(ev', e) := capture_loop fps' rest in (ev ++ ev', e)
      | (ev, Break) => (ev ++ [DestroyAllWindows], Quit)
      | (ev, Crash e) => (ev, Uncaught e)
      end
  end.

(** Lines 34 to 46: the [try] block with [runner.init()] and the two
    prints that subscript [model_info].  It gives what was printed and the
    exception that reached the [except] clause, if one did. *)
Definition init_block : list (event score) * attempt unit :=
  match runner_init with
  | Raised e => ([], Raised e)
  | Done model_info =>
      match subscript2 model_info "project" "name" with
      | Raised e => ([], Raised e)
      | Done name =>
          match subscript2 model_info "project" "owner" with
          | Raised e => ([PrintInfo "Model name:" name], Raised e)
          | Done owner =>
              ([ PrintInfo "Model name:" name;
                 PrintInfo "Model owner:" owner ], Done tt)
          end
      end
  end.

(** The whole script.  The [except] clause prints, stops the runner (an
    object, so [if (runner)] holds) and exits with status 1. *)
Definition live_detection (frames : list (frame picture))
  : list (event score) * ending :=
  match init_block with
  | (printed, Raised e) =>
      (printed ++
       [ Print "ERROR: Could not initialize model"; PrintException e;
         RunnerStop ], Exit 1)
  | (printed, Done _) =>
      let '(ev, e) := capture_loop None frames in (printed ++ ev, e)
  end.

Definition is_imshow (e : event score) : bool :=
  match e with Imshow => true | _ => false end.

(** How many frames a list of events shows. *)
Definition shown (ev : list (event score)) : nat :=
  List.length (filter is_imshow ev).

End Script.

(** A stub runner, over the [model_info] it returns: a picture is the
    model's answer for it; the clock has 1000 ticks a second, and a score
    is a float with an integer value [v], which Python prints as [v.0]. *)
Definition runner_with (info : attempt pyval) : Runner := {|
  picture := attempt (list (bounding_box Z));
  features := attempt (list (bounding_box Z));
  score := Z;
  runner_init := info;
  cvt_color := fun p => p;
  get_features_from_image := fun p => Done p;
  classify := fun f => f;
  str_round2 := fun v => (str_int v ++ ".0")%string;
  frame_rate := fun ticks => if ticks =? 0 then Raised ZeroDivisionError
                             else Done (1000 / ticks)
|}.

Definition full_info : pyval :=
  PyDict [ ("project"%string,
            PyDict [ ("name"%string, PyStr "dogs");
                     ("owner"%string, PyStr "me") ]) ].

(** A [model_info] whose project has no owner. *)
Definition ownerless_info : pyval :=
  PyDict [ ("project"%string, PyDict [ ("name"%string, PyStr "dogs") ]) ].

Definition stub_runner : Runner := runner_with (Done full_info).

Definition dog_box : bounding_box Z := {|
  bbox_x := 10; bbox_y := 20; bbox_width := 30; bbox_height := 40;
  bbox_label := "dog"; bbox_value := 1
|}.

Definition frame_with (answer : attempt (list (bounding_box Z))) (k : Z)
  : frame (attempt (list (bounding_box Z))) :=
  {| array := answer; ticks_start := 100; ticks_end := 140; key := k |}.

End LiveDetection.

(** Closes a goal on concrete data. *)
Ltac concrete :=
  first [ reflexivity
        | cbn; lia
        | vm_compute; reflexivity
        | vm_compute; intuition discriminate ].

(** * Proofs *)

Unset Implicit Arguments.

(** ** Builtins *)

Lemma range_spec (n i : Z) : In i (Py.range n) <-> 0 <= i < n.
Proof.
  unfold Py.range. rewrite in_map_iff. split.
  - intros (k & <- & Hk). apply in_seq in Hk. lia.
  - intros Hi. exists (Z.to_nat i). split; [lia|]. apply in_seq. lia.
Qed.

Lemma range_length (n : Z) : Z.of_nat (List.length (Py.range n)) = Z.max 0 n.
Proof. unfold Py.range. rewrite length_map, length_seq. lia. Qed.

Lemma range_nonpos (n : Z) : n <= 0 -> Py.range n = [].
Proof.
  intros Hn. unfold Py.range.
  replace (Z.to_nat n) with 0%nat by lia. reflexivity.
Qed.

Lemma range_succ (n : Z) : 0 <= n -> Py.range (n + 1) = Py.range n ++ [n].
Proof.
  intros Hn. unfold Py.range.
  replace (Z.to_nat (n + 1)) with (S (Z.to_nat n)) by lia.
  rewrite seq_S, map_app. simpl. do 3 f_equal. lia.
Qed.

Lemma index_from_spec (l : list string) (x : string) (i k : Z) :
  Py.index_from l x i = Ok k ->
  i <= k /\
  nth_error l (Z.to_nat (k - i)) = Some x /\
  forall j, (j < Z.to_nat (k - i))%nat -> nth_error l j <> Some x.
Proof.
  revert i. induction l as [|y l IH]; intros i; simpl; [discriminate|].
  destruct (String.eqb_spec y x) as [->|Hne].
  - intros [= <-]. rewrite Z.sub_diag. simpl.
    repeat split; [lia|]. intros j Hj. lia.
  - intros Hk. destruct (IH _ Hk) as (Hle & Hnth & Hmin).
    assert (Z.to_nat (k - i) = S (Z.to_nat (k - (i + 1)))) as -> by lia.
    simpl. repeat split; [lia|assumption|].
    intros [|j] Hj; simpl.
    + congruence.
    + apply Hmin. lia.
Qed.

Lemma index_from_absent (l : list string) (x : string) (i : Z) :
  ~ In x l -> Py.index_from l x i = Raise ValueError.
Proof.
  revert i. induction l as [|y l IH]; intros i Hx; simpl; [reflexivity|].
  destruct (String.eqb_spec y x) as [->|_].
  - exfalso. apply Hx. now left.
  - apply IH. intros Hin. apply Hx. now right.
Qed.

Lemma index_from_present (l : list string) (x : string) (i : Z) :
  In x l -> exists k, Py.index_from l x i = Ok k.
Proof.
  revert i. induction l as [|y l IH]; intros i Hx; simpl; [destruct Hx|].
  destruct (String.eqb_spec y x) as [->|Hne]; [now exists i|].
  destruct Hx as [Hx|Hx]; [contradiction|]. now apply IH.
Qed.

Lemma getitem_short {A} (l : list A) (i : Z) :
  0 <= i -> Z.of_nat (List.length l) <= i -> Py.getitem l i = Raise IndexError.
Proof.
  intros H0 Hlen. unfold Py.getitem.
  destruct (Z.ltb_spec i 0); [lia|].
  destruct (Z.ltb_spec i 0); [lia|].
  destruct (Z.leb_spec (Z.of_nat (List.length l)) i); [reflexivity|lia].
Qed.

Lemma getitem_long {A} (l : list A) (i : Z) :
  0 <= i < Z.of_nat (List.length l) -> exists a, Py.getitem l i = Ok a.
Proof.
  intros Hi. unfold Py.getitem.
  destruct (Z.ltb_spec i 0); [lia|].
  destruct (Z.ltb_spec i 0); [lia|].
  destruct (Z.leb_spec (Z.of_nat (List.length l)) i); [lia|]. simpl.
  destruct (nth_error l (Z.to_nat i)) eqn:E; [now eexists|].
  apply nth_error_None in E. lia.
Qed.

Lemma getitem_head {A} (a : A) (l : list A) : Py.getitem (a :: l) 0 = Ok a.
Proof.
  unfold Py.getitem.
  destruct (Z.leb_spec (Z.of_nat (List.length (a :: l))) 0) as [H|H];
    [simpl List.length in H; lia|reflexivity].
Qed.

Lemma getitem_zero {A} (l : list A) :
  Py.getitem l 0 = match hd_error l with
                   | Some a => Ok a
                   | None => Raise IndexError
                   end.
Proof. destruct l as [|a l]; [reflexivity|apply getitem_head]. Qed.

(** ** Loops *)

Lemma for_each_app {P A} (l1 l2 : list A) (body : A -> M P unit) s :
  for_each (l1 ++ l2) body s =
  bind (for_each l1 body) (fun _ => for_each l2 body) s.
Proof.
  revert s. induction l1 as [|a l1 IH]; intros s; simpl; [reflexivity|].
  unfold bind. destruct (body a s) as [[[]|e] s']; [|reflexivity].
  rewrite IH. reflexivity.
Qed.

Lemma for_each_row {P A B} (a : A) (l : list B) (f : A -> B -> M P unit) s :
  for_each (map (pair a) l) (fun w => f (fst w) (snd w)) s =
  for_each l (f a) s.
Proof.
  revert s. induction l as [|b l IH]; intros s; simpl; [reflexivity|].
  unfold bind. destruct (f a b s) as [[[]|e] s']; [apply IH|reflexivity].
Qed.

(** Two nested loops visit the pairs row by row. *)
Lemma for_each_nested {P A B} (l1 : list A) (l2 : list B)
    (f : A -> B -> M P unit) s :
  for_each l1 (fun a => for_each l2 (f a)) s =
  for_each (flat_map (fun a => map (pair a) l2) l1)
           (fun w => f (fst w) (snd w)) s.
Proof.
  revert s. induction l1 as [|a l1 IH]; intros s; simpl; [reflexivity|].
  rewrite for_each_app. unfold bind. rewrite for_each_row.
  destruct (for_each l2 (f a) s) as [[[]|e] s']; [apply IH|reflexivity].
Qed.

Section ScanFacts.
Context {RT : Runtime}.
Variables (st : settings prob) (g : globals) (img : image).

Lemma scan_window_run (w : Z * Z) s :
  scan_window st g img (fst w) (snd w) s =
  (match window_prob st g img w with
   | Ok _ => Ok tt
   | Raise e => Raise e
   end,
   {| bboxes := bboxes s ++ window_boxes st g img w;
      calls := calls s ++ [window_roi st w] |}).
Proof.
  unfold scan_window, window_boxes, window_prob, window_roi, window_box,
    bind, classify, lift.
  destruct (tf_classify _ _) as [objs|e]; simpl;
    [|now rewrite app_nil_r].
  destruct (Py.getitem objs 0) as [o|e]; simpl; [|now rewrite app_nil_r].
  destruct (Py.getitem (output o) (target_idx g)) as [p|e]; simpl;
    [|now rewrite app_nil_r].
  destruct (prob_ge p (target_threshold st)); simpl;
    [reflexivity|now rewrite app_nil_r].
Qed.

Lemma for_each_outcome (ws : list (Z * Z)) s :
  for_each ws (fun w => scan_window st g img (fst w) (snd w)) s =
  (match snd (outcome st g img ws) with
   | None => Ok tt
   | Some e => Raise e
   end,
   {| bboxes := bboxes s ++
                flat_map (window_boxes st g img) (fst (outcome st g img ws));
      calls := calls s ++
               map (window_roi st) (fst (outcome st g img ws)) |}).
Proof.
  revert s. induction ws as [|w ws IH]; intros s; simpl.
  - unfold ret. rewrite !app_nil_r. now destruct s.
  - unfold bind. rewrite scan_window_run.
    destruct (window_prob st g img w) as [p|e] eqn:E.
    + rewrite IH. simpl.
      destruct (outcome st g img ws) as [done e]. simpl.
      rewrite <- !app_assoc. reflexivity.
    + simpl. unfold window_boxes. rewrite E. reflexivity.
Qed.

(** The scan in one equation. *)
Lemma scan_spec :
  scan st g img =
  (match snd (outcome st g img (windows g)) with
   | None =>
       Ok (flat_map (window_boxes st g img)
                    (fst (outcome st g img (windows g))))
   | Some e => Raise e
   end,
   map (window_roi st) (fst (outcome st g img (windows g)))).
Proof.
  unfold scan, scan_loops.
  rewrite (for_each_nested _ _ (scan_window st g img)).
  fold (windows g). rewrite for_each_outcome. simpl.
  now destruct (snd (outcome st g img (windows g))).
Qed.

Lemma outcome_prefix (ws : list (Z * Z)) :
  exists rest, ws = fst (outcome st g img ws) ++ rest.
Proof.
  induction ws as [|w ws [rest IH]]; simpl; [now exists []|].
  destruct (window_prob st g img w).
  - destruct (outcome st g img ws) as [done e]. simpl in *.
    exists rest. now f_equal.
  - now exists ws.
Qed.

Lemma outcome_none (ws : list (Z * Z)) :
  snd (outcome st g img ws) = None ->
  fst (outcome st g img ws) = ws /\
  forall w, In w ws -> exists p, window_prob st g img w = Ok p.
Proof.
  induction ws as [|w ws IH]; simpl; [intros _; split; [easy|intros ? []]|].
  destruct (window_prob st g img w) as [p|e] eqn:E; [|discriminate].
  destruct (outcome st g img ws) as [done e]. simpl in *.
  intros He. destruct (IH He) as [-> Hall]. split; [reflexivity|].
  intros w' [<-|Hin]; [now exists p|now apply Hall].
Qed.

Lemma outcome_all_ok (ws : list (Z * Z)) :
  (forall w, In w ws -> exists p, window_prob st g img w = Ok p) ->
  outcome st g img ws = (ws, None).
Proof.
  induction ws as [|w ws IH]; intros Hall; simpl; [reflexivity|].
  destruct (Hall w (or_introl eq_refl)) as [p ->].
  rewrite IH; [reflexivity|]. intros w' Hin. apply Hall. now right.
Qed.

Lemma outcome_first_raise (pre post : list (Z * Z)) (w : Z * Z) (e : exn) :
  (forall w', In w' pre -> exists p, window_prob st g img w' = Ok p) ->
  window_prob st g img w = Raise e ->
  outcome st g img (pre ++ w :: post) = (pre ++ [w], Some e).
Proof.
  induction pre as [|w0 pre IH]; intros Hall Hw; simpl.
  - now rewrite Hw.
  - destruct (Hall w0 (or_introl eq_refl)) as [p ->].
    rewrite IH; [reflexivity| |assumption].
    intros w' Hin. apply Hall. now right.
Qed.

Lemma outcome_some_raise (ws : list (Z * Z)) (w : Z * Z) (e : exn) :
  In w ws -> window_prob st g img w = Raise e ->
  exists e', snd (outcome st g img ws) = Some e'.
Proof.
  intros Hin Hw. destruct (snd (outcome st g img ws)) as [e'|] eqn:E;
    [now exists e'|].
  destruct (outcome_none _ E) as [_ Hall].
  destruct (Hall w Hin) as [p Hp]. congruence.
Qed.

Lemma windows_spec (v h : Z) :
  In (v, h) (windows g) <->
  0 <= v < num_vertical_windows g /\ 0 <= h < num_horizontal_windows g.
Proof.
  unfold windows. rewrite in_flat_map. split.
  - intros (v' & Hv & Hin). apply in_map_iff in Hin.
    destruct Hin as (h' & [= <- <-] & Hh).
    apply range_spec in Hv, Hh. now split.
  - intros [Hv Hh]. exists v. split; [now apply range_spec|].
    apply in_map_iff. exists h. split; [reflexivity|now apply range_spec].
Qed.

Lemma windows_length :
  Z.of_nat (List.length (windows g)) =
  Z.max 0 (num_horizontal_windows g) * Z.max 0 (num_vertical_windows g).
Proof.
  unfold windows. rewrite <- !range_length.
  induction (Py.range (num_vertical_windows g)) as [|v l IH]; simpl;
    [lia|].
  rewrite length_app, length_map, Nat2Z.inj_add, IH. lia.
Qed.

End ScanFacts.

(** ** Start-up *)

Lemma startup_ok {P} (st : settings P) (g : globals) :
  startup st = Ok g ->
  stride st <> 0 /\
  num_horizontal_windows g = (width st - window_width st) / stride st + 1 /\
  num_vertical_windows g = (height st - window_height st) / stride st + 1 /\
  labels g = read_labels (labels_lines st) /\
  Py.index (labels g) (target_label st) = Ok (target_idx g).
Proof.
  unfold startup, num_windows, Py.floor_div.
  destruct (Z.eqb_spec (stride st) 0) as [|Hs]; [discriminate|].
  destruct (Py.index _ _) as [idx|e] eqn:E; [|discriminate].
  intros [= <-]. simpl. repeat split; assumption.
Qed.

Lemma startup_zero_stride {P} (st : settings P) :
  stride st = 0 -> startup st = Raise ZeroDivisionError.
Proof.
  intros Hs. unfold startup, num_windows, Py.floor_div. now rewrite Hs.
Qed.

(** ** Order of the grid *)

Lemma sorted_app {A} (R : A -> A -> Prop) (l1 l2 : list A) :
  StronglySorted R l1 -> StronglySorted R l2 ->
  (forall x y, In x l1 -> In y l2 -> R x y) ->
  StronglySorted R (l1 ++ l2).
Proof.
  induction 1 as [|a l1 Hs IH Ha]; intros H2 Hx; simpl; [assumption|].
  constructor.
  - apply IH; [assumption|]. intros x y Hin. apply Hx. now right.
  - apply Forall_app. split; [assumption|].
    apply Forall_forall. intros y Hy. apply Hx; [now left|assumption].
Qed.

Lemma seq_sorted (a n : nat) : StronglySorted Z.lt (map Z.of_nat (seq a n)).
Proof.
  revert a. induction n as [|n IH]; intros a; simpl; constructor.
  - apply IH.
  - apply Forall_forall. intros z Hz. apply in_map_iff in Hz.
    destruct Hz as (k & <- & Hk). apply in_seq in Hk. lia.
Qed.

Lemma range_sorted (n : Z) : StronglySorted Z.lt (Py.range n).
Proof. apply seq_sorted. Qed.

Lemma row_sorted (v : Z) (l : list Z) :
  StronglySorted Z.lt l -> StronglySorted idx_lt (map (pair v) l).
Proof.
  induction 1 as [|h l Hs IH Hh]; simpl; constructor; [assumption|].
  apply Forall_forall. intros w Hw. apply in_map_iff in Hw.
  destruct Hw as (h' & <- & Hin). right. simpl. split; [reflexivity|].
  rewrite Forall_forall in Hh. now apply Hh.
Qed.

Lemma grid_sorted (l1 l2 : list Z) :
  StronglySorted Z.lt l1 -> StronglySorted Z.lt l2 ->
  StronglySorted idx_lt (flat_map (fun v => map (pair v) l2) l1).
Proof.
  induction 1 as [|v l1 Hs IH Hv]; intros H2; simpl; [constructor|].
  apply sorted_app; [now apply row_sorted|now apply IH|].
  intros x y Hx Hy. apply in_map_iff in Hx. destruct Hx as (h & <- & _).
  apply in_flat_map in Hy. destruct Hy as (v' & Hv' & Hy).
  apply in_map_iff in Hy. destruct Hy as (h' & <- & _).
  left. simpl. rewrite Forall_forall in Hv. now apply Hv.
Qed.

Lemma windows_sorted (g : globals) : StronglySorted idx_lt (windows g).
Proof. apply grid_sorted; apply range_sorted. Qed.

Lemma idx_lt_irrefl (w : Z * Z) : ~ idx_lt w w.
Proof. unfold idx_lt. lia. Qed.

(** ** The claims *)

Section Claims.
Context {RT : Runtime}.
Variables (st : settings prob) (g : globals) (img : image).

Lemma scan_ok_inv (bbs : list (bbox prob)) (log : list roi) :
  scan st g img = (Ok bbs, log) ->
  bbs = flat_map (window_boxes st g img) (windows g) /\
  log = map (window_roi st) (windows g) /\
  forall w, In w (windows g) -> exists p, window_prob st g img w = Ok p.
Proof.
  rewrite scan_spec.
  destruct (snd (outcome st g img (windows g))) as [e|] eqn:E;
    [discriminate|].
  destruct (outcome_none _ _ _ _ E) as [-> Hall].
  intros [= <- <-]. repeat split. assumption.
Qed.

Lemma scan_log_incl (res : result (list (bbox prob))) (log : list roi) :
  scan st g img = (res, log) ->
  forall r, In r log -> exists w, In w (windows g) /\ r = window_roi st w.
Proof.
  rewrite scan_spec. intros [= _ <-] r Hr.
  apply in_map_iff in Hr. destruct Hr as (w & <- & Hw).
  exists w. split; [|reflexivity].
  destruct (outcome_prefix st g img (windows g)) as [rest Hrest].
  rewrite Hrest. apply in_or_app. now left.
Qed.

End Claims.

(** C1 (as amended). With the window no larger than the frame and a
    positive stride, a scan that runs to its end has called the classifier
    on exactly [(floor((W-w)/stride)+1) * (floor((H-h)/stride)+1)] windows,
    and a scan that an exception ends has called it on no more than
    that. *)
Theorem C1_window_count {RT : Runtime} (st : settings prob) (g : globals)
    (img : image) (res : result (list (bbox prob))) (log : list roi) :
  window_width st <= width st ->
  window_height st <= height st ->
  0 < stride st ->
  startup st = Ok g ->
  scan st g img = (res, log) ->
  let n := ((width st - window_width st) / stride st + 1) *
           ((height st - window_height st) / stride st + 1) in
  Z.of_nat (List.length log) <= n /\
  (is_ok res = true -> Z.of_nat (List.length log) = n).
Proof.
  intros Hw Hh Hs Hg Hscan n.
  destruct (startup_ok _ _ Hg) as (_ & Hnh & Hnv & _).
  assert (0 <= (width st - window_width st) / stride st)
    by (apply Z.div_pos; lia).
  assert (0 <= (height st - window_height st) / stride st)
    by (apply Z.div_pos; lia).
  assert (Hn : Z.of_nat (List.length (windows g)) = n)
    by (rewrite windows_length, Hnh, Hnv; subst n; lia).
  split.
  - rewrite scan_spec in Hscan. injection Hscan as _ <-.
    destruct (outcome_prefix st g img (windows g)) as [rest Hrest].
    apply (f_equal (@List.length _)) in Hrest. rewrite length_app in Hrest.
    rewrite length_map. lia.
  - destruct res as [bbs|e]; [intros _|discriminate].
    destruct (scan_ok_inv _ _ _ _ _ Hscan) as (_ & -> & _).
    now rewrite length_map.
Qed.

Section Boxes.
Context {RT : Runtime}.
Variables (st : settings prob) (g : globals) (img : image).

Lemma window_boxes_inv (w : Z * Z) (b : bbox prob) :
  In b (window_boxes st g img w) ->
  exists p, window_prob st g img w = Ok p /\
            prob_ge p (target_threshold st) = true /\
            b = window_box st w p.
Proof.
  unfold window_boxes. destruct (window_prob st g img w) as [p|e]; [|easy].
  destruct (prob_ge p (target_threshold st)) eqn:E; [|easy].
  intros [<-|[]]. now exists p.
Qed.

Lemma filter_self (w : Z * Z) :
  filter (at_position (snd w * stride st) (fst w * stride st))
         (window_boxes st g img w) = window_boxes st g img w.
Proof.
  unfold window_boxes. destruct (window_prob st g img w) as [p|e]; [|easy].
  destruct (prob_ge p (target_threshold st)); [|easy].
  simpl. unfold at_position. simpl. now rewrite !Z.eqb_refl.
Qed.

Lemma filter_other (w : Z * Z) (ws : list (Z * Z)) :
  stride st <> 0 -> ~ In w ws ->
  filter (at_position (snd w * stride st) (fst w * stride st))
         (flat_map (window_boxes st g img) ws) = [].
Proof.
  intros Hs. induction ws as [|w' ws IH]; intros Hw; simpl; [reflexivity|].
  rewrite filter_app, IH by (intros Hin; apply Hw; now right).
  rewrite app_nil_r. unfold window_boxes.
  destruct (window_prob st g img w') as [p|e]; [|easy].
  destruct (prob_ge p (target_threshold st)); [|easy].
  simpl. unfold at_position. simpl.
  destruct (Z.eqb_spec (snd w' * stride st) (snd w * stride st)) as [Hx|];
    [|reflexivity].
  destruct (Z.eqb_spec (fst w' * stride st) (fst w * stride st)) as [Hy|];
    [|reflexivity].
  exfalso. apply Hw. left.
  apply Z.mul_cancel_r in Hx, Hy; try assumption.
  destruct w, w'. simpl in *. congruence.
Qed.

Lemma filter_window (w : Z * Z) (ws : list (Z * Z)) :
  stride st <> 0 -> StronglySorted idx_lt ws -> In w ws ->
  filter (at_position (snd w * stride st) (fst w * stride st))
         (flat_map (window_boxes st g img) ws) = window_boxes st g img w.
Proof.
  intros Hs. induction 1 as [|w' ws Hsorted IH Hall]; intros Hw;
    [destruct Hw|].
  rewrite Forall_forall in Hall. simpl. rewrite filter_app.
  destruct Hw as [->|Hw].
  - rewrite filter_self, filter_other, app_nil_r; try easy.
    intros Hin. apply (idx_lt_irrefl _ (Hall _ Hin)).
  - rewrite IH by assumption.
    assert (Hw' : ~ In w [w'])
      by (intros [->|[]]; apply (idx_lt_irrefl _ (Hall _ Hw))).
    apply (filter_other w [w'] Hs) in Hw'. simpl in Hw'.
    rewrite app_nil_r in Hw'. now rewrite Hw'.
Qed.

Lemma boxes_sorted (ws : list (Z * Z)) :
  0 < stride st -> StronglySorted idx_lt ws ->
  StronglySorted raster_lt (flat_map (window_boxes st g img) ws).
Proof.
  intros Hs. induction 1 as [|w ws Hsorted IH Hall]; simpl; [constructor|].
  rewrite Forall_forall in Hall.
  destruct (window_boxes st g img w) as [|b [|b' l]] eqn:E.
  - assumption.
  - simpl. constructor; [assumption|].
    apply Forall_forall. intros b2 Hb2. apply in_flat_map in Hb2.
    destruct Hb2 as (w2 & Hw2 & Hb2).
    apply window_boxes_inv in Hb2. destruct Hb2 as (p2 & _ & _ & ->).
    assert (Hb : In b (window_boxes st g img w)) by (rewrite E; now left).
    apply window_boxes_inv in Hb. destruct Hb as (p & _ & _ & ->).
    specialize (Hall _ Hw2). unfold idx_lt in Hall.
    unfold raster_lt, window_box. simpl. nia.
  - exfalso. unfold window_boxes in E.
    destruct (window_prob st g img w); [|discriminate].
    destruct (prob_ge _ _); discriminate.
Qed.

End Boxes.

(** C2. In a scan that runs to its end, the boxes at a window's grid
    position are the one box [(x, y, window_width, window_height, p)] when
    the classifier's probability [p] for the target label on that window
    is [>=] the threshold, and none when it is not. *)
Theorem C2_threshold {RT : Runtime} (st : settings prob) (g : globals)
    (img : image) (bbs : list (bbox prob)) (log : list roi) (w : Z * Z) :
  startup st = Ok g ->
  scan st g img = (Ok bbs, log) ->
  In w (windows g) ->
  exists p,
    window_prob st g img w = Ok p /\
    (In (window_box st w p) bbs <-> prob_ge p (target_threshold st) = true) /\
    filter (at_position (snd w * stride st) (fst w * stride st)) bbs =
    if prob_ge p (target_threshold st) then [window_box st w p] else [].
Proof.
  intros Hg Hscan Hw.
  destruct (startup_ok _ _ Hg) as (Hs & _).
  destruct (scan_ok_inv _ _ _ _ _ Hscan) as (-> & _ & Hall).
  destruct (Hall w Hw) as [p Hp]. exists p. split; [assumption|].
  assert (Hb : window_boxes st g img w =
               if prob_ge p (target_threshold st)
               then [window_box st w p] else [])
    by (unfold window_boxes; now rewrite Hp).
  split.
  - split.
    + intros Hin. apply in_flat_map in Hin. destruct Hin as (w' & _ & Hin).
      apply window_boxes_inv in Hin. destruct Hin as (p' & _ & Hge & Heq).
      apply (f_equal (@bprob _)) in Heq. simpl in Heq. now subst p'.
    + intros Hge. apply in_flat_map. exists w. split; [assumption|].
      rewrite Hb, Hge. now left.
  - rewrite <- Hb. apply filter_window; [assumption| |assumption].
    apply windows_sorted.
Qed.

(** C3. With a positive stride, the boxes of a scan that runs to its end
    are what the windows contribute one after the other in the order of
    the loops (rows top to bottom, each row left to right), so they are
    strictly increasing in [(y, x)]; scores play no part in the order. *)
Theorem C3_raster_order {RT : Runtime} (st : settings prob) (g : globals)
    (img : image) (bbs : list (bbox prob)) (log : list roi) :
  0 < stride st ->
  scan st g img = (Ok bbs, log) ->
  bbs = flat_map (window_boxes st g img) (windows g) /\
  StronglySorted idx_lt (windows g) /\
  StronglySorted raster_lt bbs.
Proof.
  intros Hs Hscan.
  destruct (scan_ok_inv _ _ _ _ _ Hscan) as (-> & _ & _).
  split; [reflexivity|]. split; [apply windows_sorted|].
  apply boxes_sorted; [assumption|apply windows_sorted].
Qed.

Lemma grid_bound (frame window step k : Z) :
  step <> 0 -> window <= frame ->
  0 <= k < (frame - window) / step + 1 ->
  0 <= k * step <= frame - window.
Proof.
  intros Hs Hw Hk.
  destruct (Z.lt_trichotomy step 0) as [Hneg|[H0|Hpos]]; [|contradiction|].
  - pose proof (Z.div_mod (frame - window) step Hs) as Hdm.
    pose proof (Z.mod_neg_bound (frame - window) step Hneg) as Hm.
    assert ((frame - window) / step <= 0) by nia.
    assert (k = 0) by lia. subst k. lia.
  - pose proof (Z.mul_div_le (frame - window) step Hpos). nia.
Qed.

(** C4. With the window no larger than the frame, every window a scan
    classifies has [0 <= x <= W - w] and [0 <= y <= H - h] with [x] and [y]
    multiples of the stride; when the window is the frame, the scan
    classifies the one window at [(0, 0)]. *)
Theorem C4_window_positions {RT : Runtime} (st : settings prob) (g : globals)
    (img : image) (res : result (list (bbox prob))) (log : list roi) :
  startup st = Ok g ->
  window_width st <= width st ->
  window_height st <= height st ->
  scan st g img = (res, log) ->
  (forall x y w h, In (x, y, w, h) log ->
     0 <= x <= width st - window_width st /\
     0 <= y <= height st - window_height st /\
     (stride st | x) /\ (stride st | y)) /\
  (window_width st = width st -> window_height st = height st ->
   log = [(0, 0, width st, height st)]).
Proof.
  intros Hg Hw Hh Hscan.
  destruct (startup_ok _ _ Hg) as (Hs & Hnh & Hnv & _).
  split.
  - intros x y w h Hin.
    destruct (scan_log_incl _ _ _ _ _ Hscan _ Hin) as ([v k] & Hwin & Heq).
    apply windows_spec in Hwin. rewrite Hnh, Hnv in Hwin.
    destruct Hwin as [Hv Hk].
    unfold window_roi in Heq. simpl in Heq. injection Heq as -> -> _ _.
    split; [apply grid_bound; assumption|].
    split; [apply grid_bound; assumption|].
    split; eexists; reflexivity.
  - intros Ew Eh.
    assert (Hwin : windows g = [(0, 0)]).
    { unfold windows. rewrite Hnh, Hnv, Ew, Eh, !Z.sub_diag.
      rewrite !Z.div_0_l by assumption. reflexivity. }
    rewrite scan_spec, Hwin in Hscan. injection Hscan as _ <-.
    simpl. unfold window_roi. rewrite Ew, Eh.
    destruct (window_prob st g img (0, 0)); reflexivity.
Qed.

Lemma inside_window {RT : Runtime} (st : settings prob) (px py : Z)
    (w : Z * Z) :
  inside px py (window_roi st w) = true <->
  snd w * stride st <= px < snd w * stride st + window_width st /\
  fst w * stride st <= py < fst w * stride st + window_height st.
Proof. unfold inside, window_roi. simpl. lia. Qed.

Lemma axis_cover (frame window step p : Z) :
  0 < step <= window -> window <= frame -> 0 <= p ->
  (exists k, 0 <= k < (frame - window) / step + 1 /\
             k * step <= p < k * step + window) <->
  p < frame - (frame - window) mod step.
Proof.
  intros Hs Hw Hp.
  pose proof (Z.div_mod (frame - window) step ltac:(lia)) as Hdm.
  pose proof (Z.mod_pos_bound (frame - window) step ltac:(lia)) as Hm.
  assert (0 <= (frame - window) / step) by (apply Z.div_pos; lia).
  split.
  - intros (k & Hk & Hin). nia.
  - intros Hlt.
    pose proof (Z.div_mod p step ltac:(lia)) as Hpd.
    pose proof (Z.mod_pos_bound p step ltac:(lia)) as Hpm.
    assert (0 <= p / step) by (apply Z.div_pos; lia).
    destruct (Z.le_gt_cases (p / step) ((frame - window) / step)) as [Hle|Hgt].
    + exists (p / step). nia.
    + exists ((frame - window) / step). nia.
Qed.

(** C5 (as amended). With [0 < stride <= w <= W] and [stride <= h <= H], a
    pixel [(px, py)] with [0 <= px] and [0 <= py] lies inside a window of a
    finished scan exactly when [px < W - (W - w) mod stride] and
    [py < H - (H - h) mod stride]: the windows cover the frame up to the
    last full step, and nothing of the margin beyond it. *)
Theorem C5_coverage {RT : Runtime} (st : settings prob) (g : globals)
    (img : image) (bbs : list (bbox prob)) (log : list roi) (px py : Z) :
  startup st = Ok g ->
  0 < stride st <= window_width st -> window_width st <= width st ->
  stride st <= window_height st -> window_height st <= height st ->
  scan st g img = (Ok bbs, log) ->
  0 <= px -> 0 <= py ->
  (existsb (inside px py) log = true <->
   px < width st - (width st - window_width st) mod stride st /\
   py < height st - (height st - window_height st) mod stride st).
Proof.
  intros Hg Hsw Hw Hsh Hh Hscan Hpx Hpy.
  destruct (startup_ok _ _ Hg) as (_ & Hnh & Hnv & _).
  destruct (scan_ok_inv _ _ _ _ _ Hscan) as (_ & -> & _).
  rewrite existsb_exists.
  rewrite <- (axis_cover (width st) (window_width st) (stride st) px)
    by assumption.
  rewrite <- (axis_cover (height st) (window_height st) (stride st) py)
    by (try assumption; lia).
  rewrite <- Hnh, <- Hnv. split.
  - intros (r & Hr & Hin). apply in_map_iff in Hr.
    destruct Hr as ([v k] & <- & Hwin).
    apply windows_spec in Hwin. apply inside_window in Hin. simpl in Hin.
    split; [exists k|exists v]; tauto.
  - intros [(k & Hk & Hx) (v & Hv & Hy)].
    exists (window_roi st (v, k)). split.
    + apply in_map. apply windows_spec. tauto.
    + apply inside_window. simpl. tauto.
Qed.

(** C6 (as amended). When start-up has computed fewer than one horizontal
    or vertical window, a scan calls the classifier on nothing and ends
    normally with an empty list of boxes. *)
Theorem C6_empty_grid {RT : Runtime} (st : settings prob) (g : globals)
    (img : image) :
  startup st = Ok g ->
  num_horizontal_windows g < 1 \/ num_vertical_windows g < 1 ->
  scan st g img = (Ok [], []).
Proof.
  intros _ Hn.
  assert (Hwin : windows g = []).
  { unfold windows. destruct Hn as [Hn|Hn].
    - rewrite (range_nonpos (num_horizontal_windows g)) by lia.
      induction (Py.range (num_vertical_windows g)); [reflexivity|assumption].
    - rewrite (range_nonpos (num_vertical_windows g)) by lia. reflexivity. }
  rewrite scan_spec, Hwin. reflexivity.
Qed.

Lemma index_nonneg (l : list string) (x : string) (k : Z) :
  Py.index l x = Ok k -> 0 <= k.
Proof. intros H. apply index_from_spec in H. lia. Qed.

(** C7 (as amended). A probability vector too short to hold the target
    index makes the lookup raise [IndexError], and the scan of that frame
    ends with an exception; when every window's first prediction holds
    the target index the scan ends normally, whatever the vectors'
    lengths are otherwise. *)
Theorem C7_short_vector {RT : Runtime} (st : settings prob) (g : globals)
    (img : image) :
  startup st = Ok g ->
  (forall w o rest,
     In w (windows g) ->
     tf_classify (model_file st) (img_copy img (window_roi st w))
       = Ok (o :: rest) ->
     Z.of_nat (List.length (output o)) <= target_idx g ->
     window_prob st g img w = Raise IndexError /\
     exists e, fst (scan st g img) = Raise e) /\
  ((forall w, In w (windows g) ->
      exists o rest,
        tf_classify (model_file st) (img_copy img (window_roi st w))
          = Ok (o :: rest) /\
        target_idx g < Z.of_nat (List.length (output o))) ->
   exists bbs, fst (scan st g img) = Ok bbs).
Proof.
  intros Hg. destruct (startup_ok _ _ Hg) as (_ & _ & _ & _ & Hidx).
  apply index_nonneg in Hidx. split.
  - intros w o rest Hw Hcls Hlen.
    assert (Hp : window_prob st g img w = Raise IndexError).
    { unfold window_prob. rewrite Hcls, getitem_head.
      now apply getitem_short. }
    split; [assumption|].
    destruct (outcome_some_raise st g img _ _ _ Hw Hp) as [e He].
    exists e. rewrite scan_spec, He. reflexivity.
  - intros Hall. rewrite scan_spec, outcome_all_ok; [now eexists|].
    intros w Hw. destruct (Hall w Hw) as (o & rest & Hcls & Hlen).
    unfold window_prob. rewrite Hcls, getitem_head.
    apply getitem_long. lia.
Qed.

(** C8 (as amended). When [tf.classify] raises on a window, the scan ends
    there with that exception: the classifier has been called on the
    windows up to and with that one, and on none after it. *)
Theorem C8_classifier_failure {RT : Runtime} (st : settings prob)
    (g : globals) (img : image) (pre post : list (Z * Z)) (w : Z * Z)
    (e : exn) :
  windows g = pre ++ w :: post ->
  (forall w', In w' pre -> exists p, window_prob st g img w' = Ok p) ->
  tf_classify (model_file st) (img_copy img (window_roi st w)) = Raise e ->
  scan st g img = (Raise e, map (window_roi st) (pre ++ [w])).
Proof.
  intros Hwin Hpre Hcls.
  assert (Hp : window_prob st g img w = Raise e)
    by (unfold window_prob; now rewrite Hcls).
  rewrite scan_spec, Hwin, (outcome_first_raise st g img pre post w e Hpre Hp).
  reflexivity.
Qed.

(** C9. When the target label is not among the labels read at start-up,
    start-up raises and the script ends with that exception before any
    window is classified; when start-up succeeds, the target index is the
    first position of the label among the labels. *)
Theorem C9_target_label {RT : Runtime} (st : settings prob) :
  (~ In (target_label st) (read_labels (labels_lines st)) ->
   exists e, startup st = Raise e /\
             forall frames, script st frames = ([], [], Some e)) /\
  (forall g, startup st = Ok g ->
     0 <= target_idx g /\
     nth_error (labels g) (Z.to_nat (target_idx g)) = Some (target_label st) /\
     (forall j, (j < Z.to_nat (target_idx g))%nat ->
                nth_error (labels g) j <> Some (target_label st))) /\
  (In (target_label st) (read_labels (labels_lines st)) ->
   stride st <> 0 -> exists g, startup st = Ok g).
Proof.
  split; [|split].
  - intros Habsent.
    assert (He : exists e, startup st = Raise e).
    { unfold startup.
      destruct (num_windows _ _ _) as [nh|e]; [|now exists e].
      destruct (num_windows _ _ _) as [nv|e]; [|now exists e].
      unfold Py.index. rewrite index_from_absent by assumption.
      now exists ValueError. }
    destruct He as [e He]. exists e. split; [assumption|].
    intros frames. unfold script. now rewrite He.
  - intros g Hg. destruct (startup_ok _ _ Hg) as (_ & _ & _ & _ & Hidx).
    apply index_from_spec in Hidx. rewrite Z.sub_0_r in Hidx. exact Hidx.
  - intros Hin Hs. unfold startup, num_windows, Py.floor_div.
    destruct (Z.eqb_spec (stride st) 0) as [|_]; [contradiction|].
    destruct (index_from_present _ _ 0 Hin) as [k Hk].
    unfold Py.index. rewrite Hk. now eexists.
Qed.

Lemma for_each_ext {P A} (l : list A) (body1 body2 : A -> M P unit) :
  (forall a s, body1 a s = body2 a s) ->
  forall s, for_each l body1 s = for_each l body2 s.
Proof.
  intros Hb. induction l as [|a l IH]; intros s; simpl; [reflexivity|].
  unfold bind. rewrite Hb. destruct (body2 a s) as [[[]|e] s']; [apply IH|easy].
Qed.

(** C10. Two classifiers whose answers agree on the first prediction
    object on every image give the same scan, whatever else their lists
    hold: only [objs[0]] is read. *)
Theorem C10_first_prediction_only (I P : Type) (ge : P -> P -> bool)
    (cp : I -> roi -> I)
    (f1 f2 : string -> I -> result (list (prediction P)))
    (st : settings P) (g : globals) (img : I) :
  (forall m im, same_first (f1 m im) (f2 m im)) ->
  @scan {| image := I; prob := P; prob_ge := ge; img_copy := cp;
           tf_classify := f1 |} st g img =
  @scan {| image := I; prob := P; prob_ge := ge; img_copy := cp;
           tf_classify := f2 |} st g img.
Proof.
  intros Hsame.
  set (RT1 := {| image := I; prob := P; prob_ge := ge; img_copy := cp;
                 tf_classify := f1 |}).
  set (RT2 := {| image := I; prob := P; prob_ge := ge; img_copy := cp;
                 tf_classify := f2 |}).
  assert (Heq : forall s : scan_state P,
             @scan_loops RT1 st g img s = @scan_loops RT2 st g img s);
    [|unfold scan; now rewrite Heq].
  unfold scan_loops.
  apply for_each_ext. intros v s. apply for_each_ext. intros h s'.
  unfold scan_window, bind, classify, lift. simpl.
  specialize (Hsame (model_file st)
    (cp img (h * stride st, v * stride st, window_width st, window_height st))).
  destruct (f1 _ _) as [l1|e1], (f2 _ _) as [l2|e2]; simpl in Hsame;
    try contradiction.
  - rewrite !getitem_zero, Hsame. reflexivity.
  - now subst e2.
Qed.

(** ** The script's numbers *)

Example startup_script : startup script_settings = Ok script_globals.
Proof. reflexivity. Qed.

Example rstrip_crlf :
  read_labels (labels_lines script_settings) = ["bg"; "dog"]%string.
Proof. reflexivity. Qed.

Example getitem_negative :
  Py.getitem [1; 2; 3] (-1) = Ok 3 /\ Py.getitem [1; 2; 3] 3 = Raise IndexError.
Proof. split; reflexivity. Qed.

(** 160x120 frame, 48x48 window, stride 24: five columns, four rows. *)
Example script_windows :
  List.length (windows script_globals) = 20%nat /\
  map (window_roi (RT := stub_rt) script_settings)
      (firstn 6 (windows script_globals)) =
  [(0, 0, 48, 48); (24, 0, 48, 48); (48, 0, 48, 48); (72, 0, 48, 48);
   (96, 0, 48, 48); (0, 24, 48, 48)].
Proof. split; reflexivity. Qed.

(** A score equal to the threshold gives a box, a score just under it
    gives none. *)
Example threshold_scenario :
  fst (scan (RT := stub_rt) script_settings script_globals dog_scene) =
  Ok [box 24 0 0.6%float].
Proof. vm_compute. reflexivity. Qed.

(** Boxes come out in loop order, not by score. *)
Example mixed_scenario :
  fst (scan (RT := stub_rt) script_settings script_globals mixed_scene) =
  Ok [box 0 0 0.9%float; box 24 0 0.7%float; box 48 0 0.8%float].
Proof. vm_compute. reflexivity. Qed.

(** The extra prediction object changes nothing. *)
Example chatty_scenario :
  scan (RT := chatty_rt) script_settings script_globals dog_scene =
  scan (RT := stub_rt) script_settings script_globals dog_scene.
Proof. vm_compute. reflexivity. Qed.

(** ** The claims at concrete inputs *)

(** C1 at the script's settings: 5 * 4 = 20 windows. *)
Lemma C1_window_count_witness :
  is_ok (fst (scan (RT := stub_rt) script_settings script_globals
                   quiet_scene)) = true /\
  Z.of_nat (List.length
    (snd (scan (RT := stub_rt) script_settings script_globals quiet_scene)))
  = 5 * 4.
Proof.
  split; [concrete|].
  refine (proj2 (C1_window_count (RT := stub_rt) script_settings
                   script_globals quiet_scene
                   (fst (scan (RT := stub_rt) script_settings script_globals quiet_scene))
                   (snd (scan (RT := stub_rt) script_settings script_globals quiet_scene))
                   _ _ _ _ _) _); concrete.
Defined.

(** C1 as stated fails when the classifier raises: at the script's own
    settings (160x120 frame, 48x48 window, stride 24, 5 * 4 = 20 windows)
    a backend that fails on the third window ends the scan after three
    calls of the classifier. *)
Lemma C1_fewer_calls_on_exception :
  startup script_settings = Ok script_globals /\
  window_width script_settings <= width script_settings /\
  window_height script_settings <= height script_settings /\
  0 < stride script_settings /\
  ((width script_settings - window_width script_settings)
     / stride script_settings + 1) *
  ((height script_settings - window_height script_settings)
     / stride script_settings + 1) = 20 /\
  Z.of_nat (List.length
    (snd (scan (RT := stub_rt) script_settings script_globals
               failing_scene))) = 3.
Proof. repeat split; concrete. Qed.

(** C2 on the window at (24, 0), whose score is the threshold. *)
Lemma C2_threshold_witness :
  exists p,
    window_prob (RT := stub_rt) script_settings script_globals dog_scene (0, 1)
      = Ok p /\
    (In (window_box (RT := stub_rt) script_settings (0, 1) p)
        [box 24 0 0.6%float] <->
     PrimFloat.leb 0.6%float p = true) /\
    filter (at_position (RT := stub_rt) 24 0) [box 24 0 0.6%float] =
    if PrimFloat.leb 0.6%float p
    then [window_box (RT := stub_rt) script_settings (0, 1) p] else [].
Proof.
  refine (C2_threshold (RT := stub_rt) script_settings script_globals
            dog_scene [box 24 0 0.6%float]
            (snd (scan (RT := stub_rt) script_settings script_globals dog_scene))
            (0, 1) _ _ _).
  - concrete.
  - vm_compute. reflexivity.
  - apply windows_spec. cbn. lia.
Defined.

(** C3 on a frame whose scores are 0.9, 0.7, 0.8 along the top row. *)
Lemma C3_raster_order_witness :
  [box 0 0 0.9%float; box 24 0 0.7%float; box 48 0 0.8%float] =
  flat_map (window_boxes (RT := stub_rt) script_settings script_globals
              mixed_scene) (windows script_globals) /\
  StronglySorted idx_lt (windows script_globals) /\
  StronglySorted (raster_lt (RT := stub_rt))
    [box 0 0 0.9%float; box 24 0 0.7%float; box 48 0 0.8%float].
Proof.
  refine (C3_raster_order (RT := stub_rt) script_settings script_globals
            mixed_scene _
            (snd (scan (RT := stub_rt) script_settings script_globals mixed_scene)) _ _).
  - concrete.
  - vm_compute. reflexivity.
Defined.

(** C4 with the window as large as the frame: one window, at (0, 0). *)
Lemma C4_window_positions_witness :
  snd (scan (RT := stub_rt) full_frame_settings full_frame_globals
            quiet_scene) = [(0, 0, 160, 120)].
Proof.
  refine (proj2 (C4_window_positions (RT := stub_rt) full_frame_settings
                   full_frame_globals quiet_scene
                   (fst (scan (RT := stub_rt) full_frame_settings full_frame_globals
                              quiet_scene))
                   (snd (scan (RT := stub_rt) full_frame_settings full_frame_globals
                              quiet_scene))
                   _ _ _ _) _ _); concrete.
Defined.

(** C5 (as amended) at the script's settings and the pixel (100, 50). *)
Lemma C5_coverage_witness :
  existsb (inside 100 50)
    (snd (scan (RT := stub_rt) script_settings script_globals quiet_scene))
    = true <->
  100 < 160 - (160 - 48) mod 24 /\ 50 < 120 - (120 - 48) mod 24.
Proof.
  refine (C5_coverage (RT := stub_rt) script_settings script_globals
            quiet_scene []
            (snd (scan (RT := stub_rt) script_settings script_globals
                       quiet_scene))
            100 50 _ _ _ _ _ _ _ _); concrete.
Defined.

(** C5 as stated fails at the script's own settings: the scan runs to its
    end, (150, 0) is a pixel of the 160x120 frame, and no window the scan
    classified contains it (the last column of windows ends at x = 144). *)
Lemma C5_uncovered_pixel :
  startup script_settings = Ok script_globals /\
  window_width script_settings <= width script_settings /\
  window_height script_settings <= height script_settings /\
  is_ok (fst (scan (RT := stub_rt) script_settings script_globals
                   quiet_scene)) = true /\
  (0 <= 150 < width script_settings /\ 0 <= 0 < height script_settings) /\
  existsb (inside 150 0)
    (snd (scan (RT := stub_rt) script_settings script_globals quiet_scene))
  = false.
Proof. repeat split; concrete. Qed.

(** C6 (as amended) with a window 200 wide on a frame 160 wide. *)
Lemma C6_empty_grid_witness :
  scan (RT := stub_rt) oversized_settings oversized_globals quiet_scene
  = (Ok [], []).
Proof.
  refine (C6_empty_grid (RT := stub_rt) oversized_settings oversized_globals
            quiet_scene _ _); [concrete|left; concrete].
Defined.

(** C6 as stated fails with a window 200 wide on a frame 160 wide:
    start-up succeeds with -1 horizontal windows, and the script goes on
    to print an empty list of boxes for the frame, with no exception. *)
Lemma C6_silent_empty_result :
  startup oversized_settings = Ok oversized_globals /\
  num_horizontal_windows oversized_globals < 1 /\
  script (RT := stub_rt) oversized_settings [quiet_scene] = ([[]], [], None).
Proof. repeat split; concrete. Qed.

(** C7 (as amended): a one-element vector ends the scan with an
    exception, a three-element vector does not. *)
Lemma C7_short_vector_witness :
  (window_prob (RT := stub_rt) script_settings script_globals short_scene
     (0, 0) = Raise IndexError /\
   exists e, fst (scan (RT := stub_rt) script_settings script_globals
                       short_scene) = Raise e) /\
  exists bbs, fst (scan (RT := stub_rt) script_settings script_globals
                        wide_scene) = Ok bbs.
Proof.
  split.
  - refine (proj1 (C7_short_vector (RT := stub_rt) script_settings
                     script_globals short_scene _)
              (0, 0) {| output := [0.9%float] |} [] _ _ _).
    + concrete.
    + apply windows_spec. cbn. lia.
    + reflexivity.
    + cbn. lia.
  - refine (proj2 (C7_short_vector (RT := stub_rt) script_settings
                     script_globals wide_scene _) _).
    + concrete.
    + intros w _. exists {| output := [0.5; 0.3; 0.2]%float |}, [].
      split; [reflexivity|cbn; lia].
Defined.

(** C7 as stated fails for a vector with too many entries: with two
    labels and a model that returns three probabilities, the scan ends
    normally. *)
Lemma C7_long_vector_accepted :
  List.length (labels script_globals) = 2%nat /\
  tf_classify (Runtime := stub_rt) (model_file script_settings)
    (img_copy (Runtime := stub_rt) wide_scene (0, 0, 48, 48))
  = Ok [ {| output := [0.5; 0.3; 0.2]%float |} ] /\
  fst (scan (RT := stub_rt) script_settings script_globals wide_scene)
  = Ok [].
Proof. repeat split; concrete. Qed.

(** C8 (as amended) with a backend that fails on the third window. *)
Lemma C8_classifier_failure_witness :
  scan (RT := stub_rt) script_settings script_globals failing_scene =
  (Raise (BackendError 7),
   map (window_roi (RT := stub_rt) script_settings) [(0, 0); (0, 1); (0, 2)]).
Proof.
  refine (C8_classifier_failure (RT := stub_rt) script_settings
            script_globals failing_scene [(0, 0); (0, 1)]
            (skipn 3 (windows script_globals)) (0, 2) (BackendError 7)
            _ _ _).
  - reflexivity.
  - intros w' [<-|[<-|[]]]; eexists; reflexivity.
  - reflexivity.
Defined.

(** C8 as stated fails when the backend fails on the third of the twenty
    windows: the scan ends with the exception after three calls of the
    classifier, and the seventeen windows after it are not classified. *)
Lemma C8_scan_stops_at_failure :
  List.length (windows script_globals) = 20%nat /\
  scan (RT := stub_rt) script_settings script_globals failing_scene =
  (Raise (BackendError 7),
   [(0, 0, 48, 48); (24, 0, 48, 48); (48, 0, 48, 48)]).
Proof. split; concrete. Qed.

(** C9 with the label "cat", which the labels file does not have, and
    with the label "dog", which is its second line. *)
Lemma C9_target_label_witness :
  (exists e, startup cat_settings = Raise e /\
             forall frames, script (RT := stub_rt) cat_settings frames
                            = ([], [], Some e)) /\
  (0 <= 1 /\
   nth_error ["bg"; "dog"]%string 1 = Some "dog"%string /\
   (forall j, (j < 1)%nat ->
              nth_error ["bg"; "dog"]%string j <> Some "dog"%string)) /\
  exists g, startup script_settings = Ok g.
Proof.
  split; [|split].
  - refine (proj1 (C9_target_label (RT := stub_rt) cat_settings) _).
    intros [H|[H|[]]]; discriminate H.
  - exact (proj1 (proj2 (C9_target_label (RT := stub_rt) script_settings))
             script_globals eq_refl).
  - refine (proj2 (proj2 (C9_target_label (RT := stub_rt) script_settings))
              _ _).
    + right. left. reflexivity.
    + cbn. lia.
Defined.

(** C10 with a classifier that returns a second object after the first. *)
Lemma C10_first_prediction_only_witness :
  scan (RT := stub_rt) script_settings script_globals dog_scene =
  scan (RT := chatty_rt) script_settings script_globals dog_scene.
Proof.
  refine (C10_first_prediction_only scene float
            (fun p q => PrimFloat.leb q p)
            (img_copy (Runtime := stub_rt))
            (tf_classify (Runtime := stub_rt)) chatty_classify
            script_settings script_globals dog_scene _).
  intros m im. unfold chatty_classify.
  destruct (tf_classify (Runtime := stub_rt) m im) as [[|o l]|e];
    reflexivity.
Defined.

(** * More of the script *)

(** ** Label lines (line 33) *)

Lemma string_app_assoc (s t u : string) :
  ((s ++ t) ++ u = s ++ (t ++ u))%string.
Proof. induction s as [|a s IH]; simpl; [reflexivity|now rewrite IH]. Qed.

Lemma string_app_nil_r (s : string) : (s ++ "")%string = s.
Proof. induction s as [|a s IH]; simpl; [reflexivity|now rewrite IH]. Qed.

Lemma run_last (c : ascii) (n : nat) :
  last_char (run c n) = match n with O => None | S _ => Some c end.
Proof.
  induction n as [|n IH]; [reflexivity|]. simpl.
  destruct n; [reflexivity|]. simpl in *. exact IH.
Qed.

Lemma last_char_none (s : string) : last_char s = None -> s = EmptyString.
Proof.
  induction s as [|a s IH]; [reflexivity|]. simpl.
  destruct s; [discriminate|]. intros H. now apply IH in H.
Qed.

Lemma last_char_app (s t : string) :
  last_char (s ++ t) = match last_char t with
                       | Some a => Some a
                       | None => last_char s
                       end.
Proof.
  induction s as [|a s IH].
  - simpl. now destruct (last_char t).
  - destruct s as [|b s].
    + simpl. destruct t as [|b t]; [reflexivity|].
      destruct (last_char (String b t)) eqn:E; [reflexivity|].
      now apply last_char_none in E.
    + change (last_char (String b s ++ t) =
              match last_char t with
              | Some x => Some x
              | None => last_char (String b s)
              end). exact IH.
Qed.

Lemma rstrip_run (c : ascii) (n : nat) : Py.rstrip c (run c n) = EmptyString.
Proof.
  induction n as [|n IH]; simpl; [reflexivity|].
  now rewrite IH, Ascii.eqb_refl.
Qed.

Lemma rstrip_app_run (c : ascii) (t : string) (n : nat) :
  last_char t <> Some c -> Py.rstrip c (t ++ run c n) = t.
Proof.
  induction t as [|a t IH]; intros Hlast; simpl.
  - apply rstrip_run.
  - destruct t as [|b t].
    + simpl in *. rewrite rstrip_run.
      destruct (Ascii.eqb_spec a c) as [->|_]; [now elim Hlast|reflexivity].
    + rewrite IH by exact Hlast. reflexivity.
Qed.

Lemma rstrip_decompose (c : ascii) (s : string) :
  last_char (Py.rstrip c s) <> Some c /\
  exists n, s = (Py.rstrip c s ++ run c n)%string.
Proof.
  induction s as [|a s (Hlast & n & Hs)]; simpl.
  - split; [discriminate|]. now exists O.
  - destruct (Py.rstrip c s) as [|b r] eqn:E.
    + simpl in Hs. destruct (Ascii.eqb_spec a c) as [->|Hne].
      * split; [discriminate|]. exists (S n). simpl. now f_equal.
      * split; [simpl; congruence|]. exists n. simpl. now f_equal.
    + split; [exact Hlast|]. exists n. simpl. now f_equal.
Qed.

(** X1. Each label is its line without the run of line feeds at its end
    and the run of carriage returns before that; a label never ends in a
    carriage return, and ends in a line feed only when carriage returns
    followed it in the line. *)
Theorem labels_are_stripped_lines (lines : list string) :
  List.length (read_labels lines) = List.length lines /\
  forall i line, nth_error lines i = Some line ->
    exists label a b,
      nth_error (read_labels lines) i = Some label /\
      line = (label ++ run cr a ++ run nl b)%string /\
      last_char label <> Some cr /\
      (a = O -> last_char label <> Some nl).
Proof.
  split; [apply length_map|]. intros i line Hi.
  destruct (rstrip_decompose nl line) as (Hnl & b & Hb).
  destruct (rstrip_decompose cr (Py.rstrip nl line)) as (Hcr & a & Ha).
  exists (Py.rstrip cr (Py.rstrip nl line)), a, b.
  split; [|split; [|split]].
  - unfold read_labels. now rewrite nth_error_map, Hi.
  - rewrite Hb at 1. rewrite Ha at 1. now rewrite string_app_assoc.
  - exact Hcr.
  - intros ->. simpl in Ha. rewrite string_app_nil_r in Ha.
    now rewrite <- Ha.
Qed.

(** X2. A line made of a name that ends in neither a carriage return nor
    a line feed, then any number of carriage returns, then any number of
    line feeds, gives the name as its label: LF, CRLF and no line ending
    at all read the same. *)
Theorem label_of_line_ending (name : string) (a b : nat) :
  last_char name <> Some cr ->
  last_char name <> Some nl ->
  read_labels [(name ++ run cr a ++ run nl b)%string] = [name].
Proof.
  intros Hcr Hnl. unfold read_labels. simpl. f_equal.
  rewrite <- string_app_assoc, rstrip_app_run, rstrip_app_run;
    [reflexivity|exact Hcr|].
  rewrite last_char_app, run_last. destruct a; [exact Hnl|discriminate].
Qed.

(** X2 on "dog" with a CRLF ending, an LF ending and no ending. *)
Lemma label_of_line_ending_witness :
  read_labels [("dog" ++ run cr 1 ++ run nl 1)%string] = ["dog"%string] /\
  read_labels [("dog" ++ run cr 0 ++ run nl 1)%string] = ["dog"%string] /\
  read_labels [("dog" ++ run cr 0 ++ run nl 0)%string] = ["dog"%string].
Proof. split; [|split]; apply label_of_line_ending; discriminate. Defined.

(** ** Start-up (lines 33 to 40) *)

(** X3. Start-up ends in one of three ways, in this precedence: a zero
    stride raises [ZeroDivisionError], whatever the labels are; otherwise
    a target label that is not among the labels raises [ValueError];
    otherwise start-up succeeds with the floor quotients plus one as window
    counts. *)
Theorem startup_cases {P : Type} (st : settings P) :
  (stride st = 0 -> startup st = Raise ZeroDivisionError) /\
  (stride st <> 0 ->
   ~ In (target_label st) (read_labels (labels_lines st)) ->
   startup st = Raise ValueError) /\
  (stride st <> 0 ->
   In (target_label st) (read_labels (labels_lines st)) ->
   exists idx,
     startup st =
     Ok {| labels := read_labels (labels_lines st);
           num_horizontal_windows :=
             (width st - window_width st) / stride st + 1;
           num_vertical_windows :=
             (height st - window_height st) / stride st + 1;
           target_idx := idx |}).
Proof.
  split; [apply startup_zero_stride|].
  unfold startup, num_windows, Py.floor_div, Py.index.
  split; intros Hs Hin;
    destruct (Z.eqb_spec (stride st) 0) as [|_]; try contradiction.
  - now rewrite index_from_absent.
  - destruct (index_from_present _ _ 0 Hin) as [k ->]. now exists k.
Qed.

(** X3 on the script's settings with stride 0, with the label "cat", and
    as they are. *)
Lemma startup_cases_witness :
  startup zero_stride_settings = Raise ZeroDivisionError /\
  startup cat_settings = Raise ValueError /\
  exists idx,
    startup script_settings =
    Ok {| labels := ["bg"; "dog"]%string;
          num_horizontal_windows := 5;
          num_vertical_windows := 4;
          target_idx := idx |}.
Proof.
  split; [|split].
  - exact (proj1 (startup_cases zero_stride_settings) eq_refl).
  - refine (proj1 (proj2 (startup_cases cat_settings)) _ _).
    + discriminate.
    + intros [H|[H|[]]]; discriminate H.
  - refine (proj2 (proj2 (startup_cases script_settings)) _ _).
    + discriminate.
    + right. left. reflexivity.
Defined.

(** ** The boxes of a scan (lines 61 to 79) *)

(** X4. With the window no larger than the frame, every box of a finished
    scan has the window's size, lies inside the frame, carries a score
    that is [>=] the threshold, and is on a window the classifier was
    called on. *)
Theorem boxes_inside_frame {RT : Runtime} (st : settings prob) (g : globals)
    (img : image) (bbs : list (bbox prob)) (log : list roi) (b : bbox prob) :
  startup st = Ok g ->
  window_width st <= width st ->
  window_height st <= height st ->
  scan st g img = (Ok bbs, log) ->
  In b bbs ->
  bw b = window_width st /\ bh b = window_height st /\
  0 <= bx b /\ bx b + bw b <= width st /\
  0 <= by_ b /\ by_ b + bh b <= height st /\
  prob_ge (bprob b) (target_threshold st) = true /\
  In (bx b, by_ b, bw b, bh b) log.
Proof.
  intros Hg Hw Hh Hscan Hb.
  destruct (scan_ok_inv _ _ _ _ _ Hscan) as (Hbbs & Hlog & _).
  rewrite Hbbs in Hb. apply in_flat_map in Hb. destruct Hb as (w & Hwin & Hb).
  apply window_boxes_inv in Hb. destruct Hb as (p & _ & Hge & ->).
  assert (Hin : In (window_roi st w) log)
    by (rewrite Hlog; now apply in_map).
  destruct (startup_ok _ _ Hg) as (Hs & Hnh & Hnv & _).
  destruct w as [v k]. apply windows_spec in Hwin.
  rewrite Hnh, Hnv in Hwin. destruct Hwin as [Hv Hk].
  pose proof (grid_bound _ _ _ _ Hs Hw Hk) as Hx.
  pose proof (grid_bound _ _ _ _ Hs Hh Hv) as Hy.
  unfold window_box. simpl. repeat split; try assumption; lia.
Qed.

(** X4 on the frame with the three dogs: the box at (48, 0). *)
Lemma boxes_inside_frame_witness :
  48 = 48 /\ 48 = 48 /\ 0 <= 48 /\ 48 + 48 <= 160 /\ 0 <= 0 /\ 0 + 48 <= 120 /\
  PrimFloat.leb 0.6%float 0.8%float = true /\
  In (48, 0, 48, 48)
     (snd (scan (RT := stub_rt) script_settings script_globals mixed_scene)).
Proof.
  refine (boxes_inside_frame (RT := stub_rt) script_settings script_globals
            mixed_scene
            [box 0 0 0.9%float; box 24 0 0.7%float; box 48 0 0.8%float]
            (snd (scan (RT := stub_rt) script_settings script_globals
                       mixed_scene))
            (box 48 0 0.8%float) _ _ _ _ _).
  - concrete.
  - concrete.
  - concrete.
  - vm_compute. reflexivity.
  - right. right. left. reflexivity.
Defined.

Lemma window_boxes_length {RT : Runtime} (st : settings prob) (g : globals)
    (img : image) (w : Z * Z) :
  (List.length (window_boxes st g img w) <= 1)%nat.
Proof.
  unfold window_boxes. destruct (window_prob st g img w) as [p|e]; [|simpl; lia].
  destruct (prob_ge p (target_threshold st)); simpl; lia.
Qed.

Lemma window_box_position {RT : Runtime} (st : settings prob) (g : globals)
    (img : image) (w w' : Z * Z) (b b' : bbox prob) :
  stride st <> 0 ->
  In b (window_boxes st g img w) -> In b' (window_boxes st g img w') ->
  (bx b, by_ b) = (bx b', by_ b') -> w = w'.
Proof.
  intros Hs Hb Hb'.
  apply window_boxes_inv in Hb, Hb'.
  destruct Hb as (p & _ & _ & ->), Hb' as (p' & _ & _ & ->).
  unfold window_box. simpl. intros [= Hx Hy].
  apply Z.mul_cancel_r in Hx, Hy; try assumption.
  destruct w, w'. simpl in *. congruence.
Qed.

(** X5. A finished scan has at most one box for each window it classified,
    and no two of its boxes are at the same position. *)
Theorem one_box_per_window {RT : Runtime} (st : settings prob) (g : globals)
    (img : image) (bbs : list (bbox prob)) (log : list roi) :
  startup st = Ok g ->
  scan st g img = (Ok bbs, log) ->
  (List.length bbs <= List.length log)%nat /\
  NoDup (map (fun b => (bx b, by_ b)) bbs).
Proof.
  intros Hg Hscan.
  destruct (startup_ok _ _ Hg) as (Hs & _).
  destruct (scan_ok_inv _ _ _ _ _ Hscan) as (-> & -> & _).
  rewrite length_map. generalize (windows_sorted g).
  generalize (windows g) as ws. intros ws Hsorted.
  induction Hsorted as [|w ws Hsorted [IHlen IHnd] Hall]; simpl.
  - split; [lia|constructor].
  - rewrite length_app, map_app.
    pose proof (window_boxes_length st g img w) as Hlen.
    split; [lia|].
    rewrite Forall_forall in Hall.
    destruct (window_boxes st g img w) as [|b [|b' l]] eqn:E;
      [exact IHnd| |simpl in Hlen; lia].
    simpl. constructor; [|exact IHnd].
    intros Hin. apply in_map_iff in Hin. destruct Hin as (b' & Hpos & Hb').
    apply in_flat_map in Hb'. destruct Hb' as (w' & Hw' & Hb').
    assert (Hb : In b (window_boxes st g img w)) by (rewrite E; now left).
    rewrite (window_box_position st g img w w' b b' Hs Hb Hb') in Hall
      by (symmetry; exact Hpos).
    exact (idx_lt_irrefl _ (Hall _ Hw')).
Qed.

(** X5 on the frame with the three dogs. *)
Lemma one_box_per_window_witness :
  (3 <= List.length
          (snd (scan (RT := stub_rt) script_settings script_globals
                     mixed_scene)))%nat /\
  NoDup [(0, 0); (24, 0); (48, 0)].
Proof.
  refine (one_box_per_window (RT := stub_rt) script_settings script_globals
            mixed_scene
            [box 0 0 0.9%float; box 24 0 0.7%float; box 48 0 0.8%float]
            (snd (scan (RT := stub_rt) script_settings script_globals
                       mixed_scene)) _ _).
  - concrete.
  - vm_compute. reflexivity.
Defined.

Lemma windows_empty (g : globals) :
  num_horizontal_windows g < 1 \/ num_vertical_windows g < 1 ->
  windows g = [].
Proof.
  intros Hn. unfold windows. destruct Hn as [Hn|Hn].
  - rewrite (range_nonpos (num_horizontal_windows g)) by lia.
    induction (Py.range (num_vertical_windows g)); [reflexivity|assumption].
  - rewrite (range_nonpos (num_vertical_windows g)) by lia. reflexivity.
Qed.

(** X6. With a negative stride and a window smaller than the frame in
    width or in height, start-up computes no window on that axis: the
    scan calls the classifier on nothing and ends with no box. *)
Theorem negative_stride_scans_nothing {RT : Runtime} (st : settings prob)
    (g : globals) (img : image) :
  startup st = Ok g ->
  stride st < 0 ->
  window_width st < width st \/ window_height st < height st ->
  scan st g img = (Ok [], []).
Proof.
  intros Hg Hs Hlt.
  destruct (startup_ok _ _ Hg) as (Hs0 & Hnh & Hnv & _).
  assert (Hneg : forall a, 0 < a -> a / stride st + 1 < 1).
  { intros a Ha.
    pose proof (Z.div_mod a (stride st) Hs0) as Hdm.
    pose proof (Z.mod_neg_bound a (stride st) Hs) as Hm. nia. }
  rewrite scan_spec, windows_empty; [reflexivity|].
  rewrite Hnh, Hnv. destruct Hlt as [Hlt|Hlt]; [left|right]; apply Hneg; lia.
Qed.

(** X6 on the script's settings with stride -24. *)
Lemma negative_stride_scans_nothing_witness :
  scan (RT := stub_rt) backward_settings backward_globals mixed_scene
  = (Ok [], []).
Proof.
  refine (negative_stride_scans_nothing (RT := stub_rt) backward_settings
            backward_globals mixed_scene _ _ _);
    [concrete|concrete|left; concrete].
Defined.

(** X7. When [tf.classify] answers with an empty list on a window, [objs[0]]
    raises [IndexError] and the scan ends there, after the call on that
    window. *)
Theorem empty_answer_ends_scan {RT : Runtime} (st : settings prob)
    (g : globals) (img : image) (pre post : list (Z * Z)) (w : Z * Z) :
  windows g = pre ++ w :: post ->
  (forall w', In w' pre -> exists p, window_prob st g img w' = Ok p) ->
  tf_classify (model_file st) (img_copy img (window_roi st w)) = Ok [] ->
  scan st g img = (Raise IndexError, map (window_roi st) (pre ++ [w])).
Proof.
  intros Hwin Hpre Hcls.
  assert (Hp : window_prob st g img w = Raise IndexError)
    by (unfold window_prob; now rewrite Hcls).
  rewrite scan_spec, Hwin,
    (outcome_first_raise st g img pre post w IndexError Hpre Hp).
  reflexivity.
Qed.

(** X7 with a model that is mute on the window at (24, 24), the seventh. *)
Lemma empty_answer_ends_scan_witness :
  scan (RT := stub_rt) script_settings script_globals mute_scene =
  (Raise IndexError,
   map (window_roi (RT := stub_rt) script_settings)
       ([(0, 0); (0, 1); (0, 2); (0, 3); (0, 4); (1, 0)] ++ [(1, 1)])).
Proof.
  refine (empty_answer_ends_scan (RT := stub_rt) script_settings
            script_globals mute_scene
            [(0, 0); (0, 1); (0, 2); (0, 3); (0, 4); (1, 0)]
            (skipn 7 (windows script_globals)) (1, 1) _ _ _).
  - reflexivity.
  - intros w' Hw'. repeat (destruct Hw' as [<-|Hw']; [eexists; reflexivity|]).
    destruct Hw'.
  - reflexivity.
Defined.

(** ** The main loop (lines 47 to 79) *)

Section MainLoop.
Context {RT : Runtime}.
Variables (st : settings prob) (g : globals).

Lemma main_loop_all_ok (frames : list image) :
  (forall f, In f frames -> is_ok (fst (scan st g f)) = true) ->
  main_loop st g frames =
  (map (frame_boxes st g) frames, flat_map (frame_calls st g) frames, None).
Proof.
  induction frames as [|f frames IH]; intros Hall; [reflexivity|].
  simpl. unfold frame_boxes at 1, frame_calls at 1.
  pose proof (Hall f (or_introl eq_refl)) as Hf.
  destruct (scan st g f) as [[bbs|e] log]; [|discriminate].
  rewrite IH by (intros f' Hin; apply Hall; now right). reflexivity.
Qed.

Lemma main_loop_first_raise (pre post : list image) (img : image) (e : exn) :
  (forall f, In f pre -> is_ok (fst (scan st g f)) = true) ->
  fst (scan st g img) = Raise e ->
  main_loop st g (pre ++ img :: post) =
  (map (frame_boxes st g) pre,
   flat_map (frame_calls st g) pre ++ frame_calls st g img, Some e).
Proof.
  intros Hall Himg. induction pre as [|f pre IH]; simpl.
  - unfold frame_calls. destruct (scan st g img) as [[bbs|e'] log];
      simpl in Himg; [discriminate|]. now injection Himg as ->.
  - unfold frame_boxes at 1, frame_calls at 1.
    pose proof (Hall f (or_introl eq_refl)) as Hf.
    destruct (scan st g f) as [[bbs|e'] log]; [|discriminate].
    rewrite IH by (intros f' Hin; apply Hall; now right).
    simpl. now rewrite app_assoc.
Qed.

Lemma frame_calls_ok (f : image) :
  is_ok (fst (scan st g f)) = true ->
  frame_calls st g f = map (window_roi st) (windows g).
Proof.
  unfold frame_calls. destruct (scan st g f) as [[bbs|e] log] eqn:E;
    [intros _|discriminate].
  now destruct (scan_ok_inv _ _ _ _ _ E) as (_ & -> & _).
Qed.

End MainLoop.

(** X8. A run whose scans all end normally prints one list of boxes for
    each frame, in frame order, ends with no exception, and has called
    the classifier once for each window of each frame. *)
Theorem run_without_exception {RT : Runtime} (st : settings prob)
    (g : globals) (frames : list image) :
  startup st = Ok g ->
  (forall f, In f frames -> is_ok (fst (scan st g f)) = true) ->
  script st frames =
  (map (frame_boxes st g) frames, flat_map (frame_calls st g) frames, None) /\
  List.length (flat_map (frame_calls st g) frames) =
  (List.length frames * List.length (windows g))%nat.
Proof.
  intros Hg Hall. unfold script. rewrite Hg. split.
  - now apply main_loop_all_ok.
  - induction frames as [|f frames IH]; [reflexivity|]. simpl.
    rewrite length_app, IH by (intros f' Hin; apply Hall; now right).
    rewrite frame_calls_ok by (apply Hall; now left).
    now rewrite length_map.
Qed.

(** X8 on three frames: sixty calls of the classifier. *)
Lemma run_without_exception_witness :
  script (RT := stub_rt) script_settings [quiet_scene; dog_scene; mixed_scene]
  = ([[]; [box 24 0 0.6%float];
      [box 0 0 0.9%float; box 24 0 0.7%float; box 48 0 0.8%float]],
     flat_map (frame_calls (RT := stub_rt) script_settings script_globals)
              [quiet_scene; dog_scene; mixed_scene],
     None) /\
  List.length
    (flat_map (frame_calls (RT := stub_rt) script_settings script_globals)
              [quiet_scene; dog_scene; mixed_scene]) = (3 * 20)%nat.
Proof.
  refine (run_without_exception (RT := stub_rt) script_settings
            script_globals [quiet_scene; dog_scene; mixed_scene] _ _).
  - concrete.
  - intros f [<-|[<-|[<-|[]]]]; vm_compute; reflexivity.
Defined.

(** X9. The scan of a frame that ends with an exception ends the run: the
    boxes of the frames before it have been printed, the classifier has
    been called on those frames and on the windows of the failing frame
    up to the failure, and no later frame is scanned. *)
Theorem run_ends_at_first_exception {RT : Runtime} (st : settings prob)
    (g : globals) (pre post : list image) (img : image) (e : exn) :
  startup st = Ok g ->
  (forall f, In f pre -> is_ok (fst (scan st g f)) = true) ->
  fst (scan st g img) = Raise e ->
  script st (pre ++ img :: post) =
  (map (frame_boxes st g) pre,
   flat_map (frame_calls st g) pre ++ frame_calls st g img, Some e).
Proof.
  intros Hg Hall Himg. unfold script. rewrite Hg.
  now apply main_loop_first_raise.
Qed.

(** X9 with the backend failing on the second of three frames. *)
Lemma run_ends_at_first_exception_witness :
  script (RT := stub_rt) script_settings
         ([dog_scene] ++ failing_scene :: [mixed_scene])
  = ([[box 24 0 0.6%float]],
     flat_map (frame_calls (RT := stub_rt) script_settings script_globals)
              [dog_scene]
     ++ [(0, 0, 48, 48); (24, 0, 48, 48); (48, 0, 48, 48)],
     Some (BackendError 7)).
Proof.
  refine (run_ends_at_first_exception (RT := stub_rt) script_settings
            script_globals [dog_scene] [mixed_scene] failing_scene
            (BackendError 7) _ _ _).
  - concrete.
  - intros f [<-|[]]. vm_compute. reflexivity.
  - vm_compute. reflexivity.
Defined.

(** ** The printed report (lines 85 to 91) *)

Lemma str_uint_no_space (d : Decimal.uint) :
  no_space (DecimalString.NilEmpty.string_of_uint d).
Proof. induction d; simpl; try split; try discriminate; assumption. Qed.

Lemma str_int_no_space (z : Z) : no_space (str_int z).
Proof.
  unfold str_int, DecimalString.NilZero.string_of_int,
    DecimalString.NilZero.string_of_uint.
  destruct (Z.to_int z) as [d|d].
  - destruct d; try apply str_uint_no_space. simpl. split; [discriminate|exact I].
  - split; [discriminate|].
    destruct d; try apply str_uint_no_space. simpl. split; [discriminate|exact I].
Qed.

Lemma str_int_inj (z1 z2 : Z) : str_int z1 = str_int z2 -> z1 = z2.
Proof.
  assert (Hnn : forall z, Z.to_int z <> Decimal.Pos Decimal.Nil /\
                          Z.to_int z <> Decimal.Neg Decimal.Nil).
  { intros [|p|p]; simpl; split; try discriminate;
      intros [= H]; now apply DecimalPos.Unsigned.to_uint_nonnil in H. }
  intros H. apply (f_equal DecimalString.NilZero.int_of_string) in H.
  unfold str_int in H.
  rewrite !DecimalString.NilZero.isi in H by apply Hnn.
  injection H as H. now apply DecimalZ.to_int_inj.
Qed.

Lemma split_at_space (s1 s2 r1 r2 : string) :
  no_space s1 -> no_space s2 ->
  (s1 ++ String " " r1 = s2 ++ String " " r2)%string ->
  s1 = s2 /\ r1 = r2.
Proof.
  revert s2. induction s1 as [|a s1 IH]; intros [|b s2]; simpl;
    intros H1 H2 H.
  - injection H as ->. now split.
  - injection H as Ha _. destruct H2 as [H2 _]. now subst b.
  - injection H as Ha _. destruct H1 as [H1 _]. now subst a.
  - injection H as -> Hs. destruct H1 as [_ H1], H2 as [_ H2].
    destruct (IH s2 H1 H2 Hs) as [-> ->]. now split.
Qed.

Lemma box_line_fields (x1 y1 w1 h1 p1 x2 y2 w2 h2 p2 : string) :
  no_space x1 -> no_space y1 -> no_space w1 -> no_space h1 ->
  no_space x2 -> no_space y2 -> no_space w2 -> no_space h2 ->
  (" " ++ "x:" ++ x1 ++ " y:" ++ y1 ++ " w:" ++ w1 ++ " h:" ++ h1 ++
   " prob:" ++ p1 =
   " " ++ "x:" ++ x2 ++ " y:" ++ y2 ++ " w:" ++ w2 ++ " h:" ++ h2 ++
   " prob:" ++ p2)%string ->
  x1 = x2 /\ y1 = y2 /\ w1 = w2 /\ h1 = h2 /\ p1 = p2.
Proof.
  intros Hx1 Hy1 Hw1 Hh1 Hx2 Hy2 Hw2 Hh2 H. simpl in H.
  injection H as H. apply split_at_space in H; try assumption.
  destruct H as [-> H]. injection H as H.
  apply split_at_space in H; try assumption.
  destruct H as [-> H]. injection H as H.
  apply split_at_space in H; try assumption.
  destruct H as [-> H]. injection H as H.
  apply split_at_space in H; try assumption.
  destruct H as [-> H]. injection H as H. now subst.
Qed.

Lemma box_line_inj {RT : Runtime} (str_prob : prob -> string)
    (b1 b2 : bbox prob) :
  box_line str_prob b1 = box_line str_prob b2 ->
  box_geometry b1 = box_geometry b2 /\
  str_prob (bprob b1) = str_prob (bprob b2).
Proof.
  intros H. unfold box_line in H.
  apply box_line_fields in H; try apply str_int_no_space.
  destruct H as (Hx & Hy & Hw & Hh & Hp).
  apply str_int_inj in Hx, Hy, Hw, Hh.
  unfold box_geometry. split; [congruence|exact Hp].
Qed.

(** X10. The lines printed for a frame tell the boxes apart: two reports
    that read the same come from lists of boxes with the same positions
    and sizes, in the same order, and the same printed scores. *)
Theorem report_determines_boxes {RT : Runtime} (str_prob : prob -> string)
    (bbs1 bbs2 : list (bbox prob)) (fps1 fps2 : prob) :
  report str_prob bbs1 fps1 = report str_prob bbs2 fps2 ->
  map box_geometry bbs1 = map box_geometry bbs2 /\
  map (fun b => str_prob (bprob b)) bbs1 =
  map (fun b => str_prob (bprob b)) bbs2.
Proof.
  unfold report. intros H. apply app_inv_head in H. revert bbs2 H.
  induction bbs1 as [|b1 l1 IH]; intros [|b2 l2]; cbn [map app]; intros H.
  - now split.
  - injection H as H _. unfold box_line in H. discriminate H.
  - injection H as H _. unfold box_line in H. discriminate H.
  - pose proof (f_equal (hd EmptyString) H) as Hline.
    pose proof (f_equal (@tl string) H) as Hrest. cbn [hd tl] in Hline, Hrest.
    destruct (box_line_inj _ _ _ Hline) as [Hg Hp].
    destruct (IH _ Hrest) as [IHg IHp]. split; congruence.
Qed.

(** X10 on two printed reports of one box each. *)
Lemma report_determines_boxes_witness :
  map (box_geometry (RT := stub_rt)) [box 24 0 0.6%float] =
  map (box_geometry (RT := stub_rt)) [box 24 0 0.6%float] /\
  map (fun b : bbox float => EmptyString) [box 24 0 0.6%float] =
  map (fun b : bbox float => EmptyString) [box 24 0 0.6%float].
Proof.
  exact (report_determines_boxes (RT := stub_rt) (fun _ => EmptyString)
           [box 24 0 0.6%float] [box 24 0 0.6%float] 0.5%float 0.7%float
           eq_refl).
Defined.

Example report_of_one_box :
  report (RT := stub_rt) (fun _ => "0.6"%string) [box 24 0 0.6%float]
         0.6%float
  = [ "---"; "Boxes:"; " x:24 y:0 w:48 h:48 prob:0.6"; "FPS: 0.6" ]%string.
Proof. reflexivity. Qed.

(** * Live object detection on the Pi camera *)

Section LiveDetectionFacts.
Import LiveDetection.
Context {R : Runner}.

Lemma shown_app (ev1 ev2 : list (event score)) :
  shown (ev1 ++ ev2) = (shown ev1 + shown ev2)%nat.
Proof. unfold shown. now rewrite filter_app, length_app. Qed.

Lemma shown_boxes (bboxes : list (bounding_box score)) :
  shown (flat_map draw_box bboxes) = O.
Proof.
  unfold shown. induction bboxes as [|b l IH]; [reflexivity|]. simpl.
  exact IH.
Qed.

(** The events of a pass that reaches [cv2.imshow]. *)
Lemma frame_body_cases (fps : option score) (fr : frame picture)
    (ev : list (event score)) (e : pass_end score) :
  frame_body fps fr = (ev, e) ->
  (shown ev = O /\ exists x, e = Crash x) \/
  (exists bboxes,
     ev = [PrintOutput (Some bboxes)] ++ flat_map draw_box bboxes ++
          [PutText ("FPS: " ++ fps_text fps)%string 0 12; Imshow; Truncate] /\
     shown ev = 1%nat /\
     match frame_rate (ticks_end fr - ticks_start fr) with
     | Raised x => e = Crash x
     | Done v => e = if key fr =? 113 then Break else Continue (Some v)
     end).
Proof.
  unfold frame_body.
  destruct (get_features_from_image _) as [ftrs|x];
    [|intros [= <- <-]; left; split; [reflexivity|now exists x]].
  destruct (classify ftrs) as [bboxes|x];
    [|intros [= <- <-]; left; split; [reflexivity|now exists TypeError]].
  intros H. right. exists bboxes.
  assert (Hev : ev = [PrintOutput (Some bboxes)] ++ flat_map draw_box bboxes ++
                     [PutText ("FPS: " ++ fps_text fps)%string 0 12;
                      Imshow; Truncate]).
  { destruct (frame_rate _) as [v|x]; [destruct (key fr =? 113)|];
      now injection H as <- _. }
  split; [exact Hev|]. split.
  - rewrite Hev, !shown_app, shown_boxes. reflexivity.
  - destruct (frame_rate _) as [v|x]; [destruct (key fr =? 113)|];
      now injection H as _ <-.
Qed.

Lemma capture_loop_no_exit (fps : option score) (frames : list (frame picture))
    (status : Z) :
  snd (capture_loop fps frames) <> Exit status.
Proof.
  revert fps. induction frames as [|fr rest IH]; intros fps; simpl;
    [discriminate|].
  destruct (frame_body fps fr) as [ev [fps'| |x]]; simpl; try discriminate.
  specialize (IH fps'). now destruct (capture_loop fps' rest).
Qed.

End LiveDetectionFacts.

(** X11. When [runner.classify] raises on a frame, the [except] clause
    prints the error, [res] stays [None], and [res['result']] ends the
    script with a [TypeError]: the frame is not shown and no later frame
    is read. *)
Theorem inference_failure_ends_run {R : LiveDetection.Runner}
    (fps : option LiveDetection.score)
    (fr : LiveDetection.frame LiveDetection.picture)
    (rest : list (LiveDetection.frame LiveDetection.picture))
    (ftrs : LiveDetection.features) (e : LiveDetection.raised) :
  LiveDetection.get_features_from_image
    (LiveDetection.cvt_color (LiveDetection.array fr)) = LiveDetection.Done ftrs ->
  LiveDetection.classify ftrs = LiveDetection.Raised e ->
  LiveDetection.capture_loop fps (fr :: rest) =
  ([ LiveDetection.Print "ERROR: Could not perform inference";
     LiveDetection.PrintException e;
     LiveDetection.PrintOutput None ],
   LiveDetection.Uncaught LiveDetection.TypeError).
Proof.
  intros Hf Hc. simpl. unfold LiveDetection.frame_body.
  now rewrite Hf, Hc.
Qed.

(** X11 on the stub: the runner fails on the first of two frames. *)
Lemma inference_failure_ends_run_witness :
  LiveDetection.capture_loop (R := LiveDetection.stub_runner) None
    [ LiveDetection.frame_with
        (LiveDetection.Raised (LiveDetection.RunnerError 3)) 0;
      LiveDetection.frame_with (LiveDetection.Done []) 113 ] =
  ([ LiveDetection.Print "ERROR: Could not perform inference";
     LiveDetection.PrintException (LiveDetection.RunnerError 3);
     LiveDetection.PrintOutput None ],
   LiveDetection.Uncaught LiveDetection.TypeError).
Proof.
  exact (inference_failure_ends_run (R := LiveDetection.stub_runner) None
           (LiveDetection.frame_with
              (LiveDetection.Raised (LiveDetection.RunnerError 3)) 0)
           [LiveDetection.frame_with (LiveDetection.Done []) 113]
           (LiveDetection.Raised (LiveDetection.RunnerError 3))
           (LiveDetection.RunnerError 3) eq_refl eq_refl).
Defined.

Lemma frame_body_classified {R : LiveDetection.Runner}
    (fps : option LiveDetection.score)
    (fr : LiveDetection.frame LiveDetection.picture)
    (ftrs : LiveDetection.features)
    (bboxes : list (LiveDetection.bounding_box LiveDetection.score)) :
  LiveDetection.get_features_from_image
    (LiveDetection.cvt_color (LiveDetection.array fr)) = LiveDetection.Done ftrs ->
  LiveDetection.classify ftrs = LiveDetection.Done bboxes ->
  LiveDetection.frame_body fps fr =
  ([LiveDetection.PrintOutput (Some bboxes)] ++
   flat_map LiveDetection.draw_box bboxes ++
   [ LiveDetection.PutText ("FPS: " ++ LiveDetection.fps_text fps)%string 0 12;
     LiveDetection.Imshow; LiveDetection.Truncate ],
   match LiveDetection.frame_rate
           (LiveDetection.ticks_end fr - LiveDetection.ticks_start fr) with
   | LiveDetection.Raised x => LiveDetection.Crash x
   | LiveDetection.Done v =>
       if LiveDetection.key fr =? 113 then LiveDetection.Break
       else LiveDetection.Continue (Some v)
   end).
Proof.
  intros Hf Hc. unfold LiveDetection.frame_body. rewrite Hf, Hc.
  destruct (LiveDetection.frame_rate _) as [v|x]; [|reflexivity].
  destruct (LiveDetection.key fr =? 113); reflexivity.
Qed.

(** X12. The frame rate drawn on a frame is the one measured on the frame
    before it.  When the loop passes two frames one after the other, the
    first with a key other than [q], the first is shown with the text for
    the [fps] the loop had on reaching it, and the second with the text
    for the rate of the first frame's ticks; the first frame of the script
    is shown with "FPS: 0". *)
Theorem fps_is_one_frame_late {R : LiveDetection.Runner}
    (fps : option LiveDetection.score)
    (fr1 fr2 : LiveDetection.frame LiveDetection.picture)
    (rest : list (LiveDetection.frame LiveDetection.picture))
    (ftrs1 ftrs2 : LiveDetection.features)
    (b1 b2 : list (LiveDetection.bounding_box LiveDetection.score))
    (v1 : LiveDetection.score) :
  LiveDetection.get_features_from_image
    (LiveDetection.cvt_color (LiveDetection.array fr1))
    = LiveDetection.Done ftrs1 ->
  LiveDetection.classify ftrs1 = LiveDetection.Done b1 ->
  LiveDetection.frame_rate
    (LiveDetection.ticks_end fr1 - LiveDetection.ticks_start fr1)
    = LiveDetection.Done v1 ->
  LiveDetection.key fr1 <> 113 ->
  LiveDetection.get_features_from_image
    (LiveDetection.cvt_color (LiveDetection.array fr2))
    = LiveDetection.Done ftrs2 ->
  LiveDetection.classify ftrs2 = LiveDetection.Done b2 ->
  (exists tail,
     fst (LiveDetection.capture_loop fps (fr1 :: fr2 :: rest)) =
     [LiveDetection.PrintOutput (Some b1)] ++
     flat_map LiveDetection.draw_box b1 ++
     [ LiveDetection.PutText
         ("FPS: " ++ LiveDetection.fps_text fps)%string 0 12;
       LiveDetection.Imshow; LiveDetection.Truncate ] ++
     [LiveDetection.PrintOutput (Some b2)] ++
     flat_map LiveDetection.draw_box b2 ++
     [ LiveDetection.PutText
         ("FPS: " ++ LiveDetection.str_round2 v1)%string 0 12;
       LiveDetection.Imshow; LiveDetection.Truncate ] ++ tail) /\
  (forall printed,
     LiveDetection.init_block = (printed, LiveDetection.Done tt) ->
     exists tail,
       fst (LiveDetection.live_detection (fr1 :: fr2 :: rest)) =
       printed ++
       [LiveDetection.PrintOutput (Some b1)] ++
       flat_map LiveDetection.draw_box b1 ++
       [ LiveDetection.PutText "FPS: 0" 0 12;
         LiveDetection.Imshow; LiveDetection.Truncate ] ++
       [LiveDetection.PrintOutput (Some b2)] ++
       flat_map LiveDetection.draw_box b2 ++
       [ LiveDetection.PutText
           ("FPS: " ++ LiveDetection.str_round2 v1)%string 0 12;
         LiveDetection.Imshow; LiveDetection.Truncate ] ++ tail).
Proof.
  intros Hf1 Hc1 Hr1 Hk1 Hf2 Hc2.
  assert (Hloop : forall fps0, exists tail,
            fst (LiveDetection.capture_loop fps0 (fr1 :: fr2 :: rest)) =
            [LiveDetection.PrintOutput (Some b1)] ++
            flat_map LiveDetection.draw_box b1 ++
            [ LiveDetection.PutText
                ("FPS: " ++ LiveDetection.fps_text fps0)%string 0 12;
              LiveDetection.Imshow; LiveDetection.Truncate ] ++
            [LiveDetection.PrintOutput (Some b2)] ++
            flat_map LiveDetection.draw_box b2 ++
            [ LiveDetection.PutText
                ("FPS: " ++ LiveDetection.str_round2 v1)%string 0 12;
              LiveDetection.Imshow; LiveDetection.Truncate ] ++ tail).
  { intros fps0. cbn [LiveDetection.capture_loop].
    rewrite (frame_body_classified fps0 fr1 ftrs1 b1 Hf1 Hc1), Hr1.
    destruct (Z.eqb_spec (LiveDetection.key fr1) 113) as [|_];
      [contradiction|].
    rewrite (frame_body_classified (Some v1) fr2 ftrs2 b2 Hf2 Hc2).
    destruct (LiveDetection.frame_rate
                (LiveDetection.ticks_end fr2 - LiveDetection.ticks_start fr2))
      as [v2|x].
    - destruct (LiveDetection.key fr2 =? 113).
      + exists [LiveDetection.DestroyAllWindows].
        cbn [fst LiveDetection.fps_text].
        repeat rewrite <- app_assoc. reflexivity.
      + destruct (LiveDetection.capture_loop (Some v2) rest) as [ev' e'].
        exists ev'. cbn [fst LiveDetection.fps_text].
        repeat rewrite <- app_assoc. reflexivity.
    - exists []. cbn [fst LiveDetection.fps_text].
      repeat rewrite <- app_assoc. reflexivity. }
  split; [apply Hloop|].
  intros printed Hinit. destruct (Hloop None) as [tail Htail].
  exists tail. unfold LiveDetection.live_detection. rewrite Hinit.
  destruct (LiveDetection.capture_loop None (fr1 :: fr2 :: rest)) as [ev e].
  cbn [fst] in *. now rewrite Htail.
Qed.

(** X12 on the stub: the first frame takes 40 ticks of a clock with 1000
    ticks a second, so the second frame is shown with "FPS: 25.0". *)
Lemma fps_is_one_frame_late_witness :
  exists tail,
    fst (LiveDetection.live_detection (R := LiveDetection.stub_runner)
           [ LiveDetection.frame_with
               (LiveDetection.Done [LiveDetection.dog_box]) 0;
             LiveDetection.frame_with (LiveDetection.Done []) 0 ]) =
    [ LiveDetection.PrintInfo "Model name:" (LiveDetection.PyStr "dogs");
      LiveDetection.PrintInfo "Model owner:" (LiveDetection.PyStr "me") ] ++
    [LiveDetection.PrintOutput (Some [LiveDetection.dog_box])] ++
    [ LiveDetection.Rectangle 10 20 40 60;
      LiveDetection.PutText "dog: 1.0" 10 32 ] ++
    [ LiveDetection.PutText "FPS: 0" 0 12;
      LiveDetection.Imshow; LiveDetection.Truncate ] ++
    [LiveDetection.PrintOutput (Some [])] ++
    [] ++
    [ LiveDetection.PutText "FPS: 25.0" 0 12;
      LiveDetection.Imshow; LiveDetection.Truncate ] ++ tail.
Proof.
  refine (proj2 (fps_is_one_frame_late (R := LiveDetection.stub_runner) None
                   (LiveDetection.frame_with
                      (LiveDetection.Done [LiveDetection.dog_box]) 0)
                   (LiveDetection.frame_with (LiveDetection.Done []) 0)
                   []
                   (LiveDetection.Done [LiveDetection.dog_box])
                   (LiveDetection.Done [])
                   [LiveDetection.dog_box] [] 25 _ _ _ _ _ _) _ _);
    try reflexivity.
  discriminate.
Defined.

(** X13. A run ends through the key [q] only at the first frame where
    [cv2.waitKey] returns 113: every frame before it had another key, and
    these frames and the one with [q] have each been shown once. *)
Theorem quit_at_first_q {R : LiveDetection.Runner}
    (frames : list (LiveDetection.frame LiveDetection.picture))
    (fps : option LiveDetection.score)
    (ev : list (LiveDetection.event LiveDetection.score)) :
  LiveDetection.capture_loop fps frames = (ev, LiveDetection.Quit) ->
  exists pre fr post,
    frames = pre ++ fr :: post /\
    LiveDetection.key fr = 113 /\
    (forall f, In f pre -> LiveDetection.key f <> 113) /\
    LiveDetection.shown ev = S (List.length pre).
Proof.
  revert fps ev. induction frames as [|fr rest IH]; intros fps ev; simpl;
    [discriminate|].
  destruct (LiveDetection.frame_body fps fr) as [ev1 e1] eqn:Hbody.
  destruct (frame_body_cases _ _ _ _ Hbody)
    as [[_ [x ->]]|(bboxes & _ & Hone & Hend)]; [discriminate|].
  destruct (LiveDetection.frame_rate _) as [v|x]; [|subst e1; discriminate].
  destruct (Z.eqb_spec (LiveDetection.key fr) 113) as [Hq|Hq]; subst e1.
  - intros [= <-]. exists [], fr, rest. repeat split; try assumption.
    + intros f [].
    + rewrite shown_app, Hone. reflexivity.
  - destruct (LiveDetection.capture_loop (Some v) rest) as [ev' e'] eqn:Hrest.
    intros [= <- ->].
    destruct (IH _ _ Hrest) as (pre & fq & post & -> & Hkey & Hpre & Hshown).
    exists (fr :: pre), fq, post. repeat split; try assumption.
    + intros f [<-|Hin]; [assumption|now apply Hpre].
    + rewrite shown_app, Hone, Hshown. reflexivity.
Qed.

(** X13 on the stub: [q] is read on the second of three frames. *)
Lemma quit_at_first_q_witness :
  exists pre fr post,
    [ LiveDetection.frame_with (LiveDetection.Done [LiveDetection.dog_box]) 0;
      LiveDetection.frame_with (LiveDetection.Done []) 113;
      LiveDetection.frame_with (LiveDetection.Done []) 113 ]
    = pre ++ fr :: post /\
    LiveDetection.key fr = 113 /\
    (forall f, In f pre -> LiveDetection.key f <> 113) /\
    LiveDetection.shown
      (fst (LiveDetection.capture_loop (R := LiveDetection.stub_runner) None
              [ LiveDetection.frame_with
                  (LiveDetection.Done [LiveDetection.dog_box]) 0;
                LiveDetection.frame_with (LiveDetection.Done []) 113;
                LiveDetection.frame_with (LiveDetection.Done []) 113 ]))
    = S (List.length pre).
Proof.
  refine (quit_at_first_q (R := LiveDetection.stub_runner) _ None _ _).
  vm_compute. reflexivity.
Defined.

(** X14. The script ends through [sys.exit] exactly when the [try] block
    fails: [runner.init()] raises, or [model_info] does not have
    ['project']['name'] or ['project']['owner'].  It then exits with
    status 1 after printing the error and stopping the runner, without
    showing a frame; at most the model's name has been printed before. *)
Theorem exit_only_when_init_fails {R : LiveDetection.Runner}
    (frames : list (LiveDetection.frame LiveDetection.picture)) :
  ((exists status, snd (LiveDetection.live_detection frames)
                   = LiveDetection.Exit status) <->
   ~ (exists model_info name owner,
        LiveDetection.runner_init = LiveDetection.Done model_info /\
        LiveDetection.subscript2 model_info "project" "name"
          = LiveDetection.Done name /\
        LiveDetection.subscript2 model_info "project" "owner"
          = LiveDetection.Done owner)) /\
  (forall status,
     snd (LiveDetection.live_detection frames) = LiveDetection.Exit status ->
     status = 1 /\
     LiveDetection.shown (fst (LiveDetection.live_detection frames)) = O /\
     exists printed e,
       fst (LiveDetection.live_detection frames) =
       printed ++
       [ LiveDetection.Print "ERROR: Could not initialize model";
         LiveDetection.PrintException e; LiveDetection.RunnerStop ] /\
       (printed = [] \/
        exists name, printed = [LiveDetection.PrintInfo "Model name:" name])).
Proof.
  unfold LiveDetection.live_detection, LiveDetection.init_block.
  pose proof (capture_loop_no_exit None frames) as Hno.
  destruct LiveDetection.runner_init as [model_info|e0].
  - destruct (LiveDetection.subscript2 model_info "project" "name")
      as [name|e1] eqn:Hname.
    + destruct (LiveDetection.subscript2 model_info "project" "owner")
        as [owner|e2] eqn:Howner.
      * destruct (LiveDetection.capture_loop None frames) as [ev e].
        cbn [fst snd] in *. split.
        -- split.
           ++ intros [status H]. now apply Hno in H.
           ++ intros H. exfalso. apply H.
              now exists model_info, name, owner.
        -- intros status H. now apply Hno in H.
      * cbn [fst snd]. split.
        -- split; [|intros _; now exists 1].
           intros _ (mi & n & o & [= <-] & _ & Ho). congruence.
        -- intros status [= <-]. repeat split.
           exists [LiveDetection.PrintInfo "Model name:" name], e2.
           split; [reflexivity|]. right. now exists name.
    + cbn [fst snd]. split.
      * split; [|intros _; now exists 1].
        intros _ (mi & n & o & [= <-] & Hn & _). congruence.
      * intros status [= <-]. repeat split.
        exists [], e1. split; [reflexivity|]. now left.
  - cbn [fst snd]. split.
    + split; [|intros _; now exists 1].
      intros _ (mi & n & o & H & _). discriminate H.
    + intros status [= <-]. repeat split.
      exists [], e0. split; [reflexivity|]. now left.
Qed.

(** X14 on a runner whose [model_info] names no owner: the name is
    printed, then the error, and the script exits with status 1. *)
Lemma exit_only_when_init_fails_witness :
  exists status,
    snd (LiveDetection.live_detection
           (R := LiveDetection.runner_with
                   (LiveDetection.Done LiveDetection.ownerless_info))
           [LiveDetection.frame_with (LiveDetection.Done []) 113])
    = LiveDetection.Exit status.
Proof.
  refine (proj2 (proj1 (exit_only_when_init_fails
                          (R := LiveDetection.runner_with
                                  (LiveDetection.Done
                                     LiveDetection.ownerless_info))
                          [LiveDetection.frame_with
                             (LiveDetection.Done []) 113])) _).
  intros (mi & name & owner & Hinit & _ & Howner).
  injection Hinit as <-. discriminate Howner.
Defined.

Example ownerless_run :
  LiveDetection.live_detection
    (R := LiveDetection.runner_with
            (LiveDetection.Done LiveDetection.ownerless_info))
    [LiveDetection.frame_with (LiveDetection.Done []) 113]
  = ([ LiveDetection.PrintInfo "Model name:" (LiveDetection.PyStr "dogs");
       LiveDetection.Print "ERROR: Could not initialize model";
       LiveDetection.PrintException (LiveDetection.KeyError "owner");
       LiveDetection.RunnerStop ],
     LiveDetection.Exit 1).
Proof. reflexivity. Qed.

(** ** Windows that do not overlap (lines 66 to 68) *)

(** X15. When the stride is at least the window's width and height, no
    pixel lies in two windows of the grid: two windows that share a pixel
    are the same window. *)
Theorem windows_do_not_overlap {RT : Runtime} (st : settings prob)
    (w1 w2 : Z * Z) (px py : Z) :
  0 < window_width st <= stride st ->
  0 < window_height st <= stride st ->
  inside px py (window_roi st w1) = true ->
  inside px py (window_roi st w2) = true ->
  w1 = w2.
Proof.
  intros Hw Hh H1 H2.
  apply inside_window in H1, H2.
  destruct w1 as [v1 k1], w2 as [v2 k2]. simpl in *.
  assert (k1 = k2) by nia. assert (v1 = v2) by nia. congruence.
Qed.

(** X15 with windows of 24 by 24 at stride 24, on the pixel (30, 5). *)
Lemma windows_do_not_overlap_witness : (0, 1) = (0, 1).
Proof.
  refine (windows_do_not_overlap (RT := stub_rt)
            {| model_file := "trained.tflite";
               labels_lines := [];
               target_label := "dog";
               target_threshold := 0.6%float;
               width := 160; height := 120;
               window_width := 24; window_height := 24;
               stride := 24 |}
            (0, 1) (0, 1) 30 5 _ _ _ _); concrete.
Defined.
